(** * DRAM information blob of the Qualcomm SMEM driver

    A shallow embedding of [drivers/soc/qcom/smem_dramc.c]: the C struct
    layouts of the three blob generations, the size-based guess of the
    layout ([smem_dram_infer_struct_version]), the three field extractors
    ([smem_dram_parse_v3_data], [smem_dram_parse_v4_data],
    [smem_dram_parse_v5_data]), the entry point [smem_dram_parse] with the
    global [__dram] it publishes, and the query [qcom_smem_dram_get_hbb].

    Conventions.  C integers are [Z] with their wrap-around written out.
    The blob is a [list byte]; every access goes through [load_u8] /
    [load_u32], which answer [None] outside the buffer, and indexing
    [ddr_freq] outside the array its struct declares is [None] as well, so
    the option monad of the extractors records memory safety and defined
    behaviour.  Multi-byte loads are
    little-endian, the byte order of the CPUs this driver runs on (the blob
    itself marks its 16-bit fields [__le16]). *)

From Stdlib Require Import ZArith Lia.
From Stdlib.Strings Require Import Byte.
From Stdlib Require DecimalString DecimalN.
From stdpp Require Import base option list strings.

Open Scope Z_scope.

(** ** C types and their layout *)

(** The scalar types the blob uses, arrays and (not packed) structs.  A
    flexible array member is an array of zero elements. *)
#[warnings="-register-all"] Inductive ctype : Type :=
| u8
| le16
| u32
| u64
| phys_addr_t
| array (elem : ctype) (count : Z)
| struct (fields : list (string * ctype)).

Definition align_up (off a : Z) : Z := ((off + a - 1) / a) * a.

Section Abi.

(** [phys_addr_t] is declared in [linux/types.h]: [u64] when the kernel is
    configured with [CONFIG_PHYS_ADDR_T_64BIT] (always on arm64), [u32]
    otherwise.  The layout is computed for either choice, [phys64] telling
    which. *)
Variable phys64 : bool.

(** Natural alignment: a scalar is aligned to its size, an array to its
    element, a struct to its most aligned field. *)
Fixpoint alignof (t : ctype) : Z :=
  match t with
  | u8 => 1
  | le16 => 2
  | u32 => 4
  | u64 => 8
  | phys_addr_t => if phys64 then 8 else 4
  | array elem _ => alignof elem
  | struct fields =>
      (fix fields_align (fs : list (string * ctype)) : Z :=
         match fs with
         | [] => 1
         | (_, ft) :: fs' => Z.max (alignof ft) (fields_align fs')
         end) fields
  end.

(** [sizeof]: fields are placed in declaration order, each at the next
    multiple of its alignment; the struct is padded to a multiple of its
    own alignment. *)
Fixpoint sizeof (t : ctype) : Z :=
  match t with
  | u8 => 1
  | le16 => 2
  | u32 => 4
  | u64 => 8
  | phys_addr_t => if phys64 then 8 else 4
  | array elem count => count * sizeof elem
  | struct fields =>
      align_up
        ((fix fields_end (fs : list (string * ctype)) (off : Z) : Z :=
            match fs with
            | [] => off
            | (_, ft) :: fs' =>
                fields_end fs' (align_up off (alignof ft) + sizeof ft)
            end) fields 0)
        (alignof (struct fields))
  end.

(** Offset of field [name], walking the fields from offset [off]. *)
Fixpoint field_offset (fs : list (string * ctype)) (name : string) (off : Z)
  : option Z :=
  match fs with
  | [] => None
  | (fname, ft) :: fs' =>
      let here := align_up off (alignof ft) in
      if String.eqb fname name then Some here
      else field_offset fs' name (here + sizeof ft)
  end.

Definition offsetof (t : ctype) (name : string) : Z :=
  match t with
  | struct fields => default 0 (field_offset fields name 0)
  | _ => 0
  end.

End Abi.

(** Type of field [name] among [fs]. *)
Fixpoint field_type (fs : list (string * ctype)) (name : string)
  : option ctype :=
  match fs with
  | [] => None
  | (fname, ft) :: fs' =>
      if String.eqb fname name then Some ft else field_type fs' name
  end.

(** Number of elements the array field [name] of struct [t] is declared
    with. *)
Definition array_count (t : ctype) (name : string) : Z :=
  match t with
  | struct fields =>
      match field_type fields name with
      | Some (array _ count) => count
      | _ => 0
      end
  | _ => 0
  end.

(** ** The declarations of the source file *)

Definition MAX_DDR_FREQ_NUM_V3 : Z := 13.
Definition MAX_DDR_FREQ_NUM_V5 : Z := 14.

Definition MAX_DDR_REGION_NUM : Z := 6.
Definition MAX_CHAN_NUM : Z := 8.
Definition MAX_RANK_NUM : Z := 2.

(** [enum ddr_info_version] *)
Definition INFO_UNKNOWN : Z := 0.
Definition INFO_V3 : Z := 1.
Definition INFO_V3_WITH_14_FREQS : Z := 2.
Definition INFO_V4 : Z := 3.
Definition INFO_V5 : Z := 4.
Definition INFO_V5_WITH_6_REGIONS : Z := 5.

Definition ddr_part_details : ctype :=
  struct [("revision_id1", le16); ("revision_id2", le16);
          ("width", le16); ("density", le16)]%string.

Definition ddr_freq_table : ctype :=
  struct [("freq_khz", u32); ("enabled", u8)]%string.

Definition ddr_freq_plan_v3 : ctype :=
  struct [("ddr_freq", array ddr_freq_table MAX_DDR_FREQ_NUM_V3);
          ("num_ddr_freqs", u8);
          ("clk_period_address", phys_addr_t)]%string.

Definition ddr_details_v3 : ctype :=
  struct [("manufacturer_id", u8);
          ("device_type", u8);
          ("ddr_params", array ddr_part_details MAX_CHAN_NUM);
          ("ddr_freq_tbl", ddr_freq_plan_v3);
          ("num_channels", u8)]%string.

Definition ddr_details_v4 : ctype :=
  struct [("manufacturer_id", u8);
          ("device_type", u8);
          ("ddr_params", array ddr_part_details MAX_CHAN_NUM);
          ("ddr_freq_tbl", ddr_freq_plan_v3);
          ("num_channels", u8);
          ("num_ranks", array u8 MAX_CHAN_NUM);
          ("highest_bank_addr_bit", array (array u8 MAX_RANK_NUM) MAX_CHAN_NUM)]%string.

Definition ddr_freq_plan_v5 : ctype :=
  struct [("ddr_freq", array ddr_freq_table MAX_DDR_FREQ_NUM_V5);
          ("num_ddr_freqs", u8);
          ("clk_period_address", phys_addr_t);
          ("max_nom_ddr_freq", u32)]%string.

Definition ddr_region_v5 : ctype :=
  struct [("start_address", u64);
          ("size", u64);
          ("mem_controller_address", u64);
          ("granule_size", u32);
          ("ddr_rank", u8);
          ("segments_start_index", u8);
          ("segments_start_offset", u64)]%string.

Definition ddr_regions_v5 : ctype :=
  struct [("ddr_region_num", u32);
          ("ddr_rank0_size", u64);
          ("ddr_rank1_size", u64);
          ("ddr_cs0_start_addr", u64);
          ("ddr_cs1_start_addr", u64);
          ("highest_bank_addr_bit", u32);
          ("ddr_region", array ddr_region_v5 0)]%string.

Definition ddr_details_v5 : ctype :=
  struct [("manufacturer_id", u8);
          ("device_type", u8);
          ("ddr_params", array ddr_part_details MAX_CHAN_NUM);
          ("ddr_freq_tbl", ddr_freq_plan_v5);
          ("num_channels", u8);
          ("ddr_regions", ddr_regions_v5)]%string.


(** ** The blob and the accesses to it *)

Definition byte_val (b : byte) : Z := Z.of_N (Byte.to_N b).

(** The [u8] at [data + off]; [None] outside the buffer. *)
Definition load_u8 (data : list byte) (off : Z) : option Z :=
  if off <? 0 then None else byte_val <$> data !! Z.to_nat off.

(** The [u32] at [data + off], little-endian. *)
Definition load_u32 (data : list byte) (off : Z) : option Z :=
  b0 ← load_u8 data off;
  b1 ← load_u8 data (off + 1);
  b2 ← load_u8 data (off + 2);
  b3 ← load_u8 data (off + 3);
  Some (b0 + b1 * 2 ^ 8 + b2 * 2 ^ 16 + b3 * 2 ^ 24).

(** Conversions to [u8] and to [u32] / [unsigned int]. *)
Definition to_u8 (z : Z) : Z := z mod 2 ^ 8.
Definition to_u32 (z : Z) : Z := z mod 2 ^ 32.

(** ** [struct smem_dram] *)

Record smem_dram : Type := {
  frequencies : list Z;      (* unsigned long frequencies[MAX_DDR_FREQ_NUM_V5] *)
  num_frequencies : Z;       (* u32 *)
  hbb : Z;                   (* u8 *)
}.

(** The zeroed object [devm_kzalloc] hands out. *)
Definition kzalloc_smem_dram : smem_dram :=
  {| frequencies := replicate (Z.to_nat MAX_DDR_FREQ_NUM_V5) 0;
     num_frequencies := 0;
     hbb := 0 |}.

(** [dram->hbb = v] *)
Definition set_hbb (dram : smem_dram) (v : Z) : smem_dram :=
  {| frequencies := frequencies dram;
     num_frequencies := num_frequencies dram;
     hbb := to_u8 v |}.

(** [dram->frequencies[dram->num_frequencies++] = v]; a store past the
    array is a fault. *)
Definition push_frequency (dram : smem_dram) (v : Z) : option smem_dram :=
  let idx := num_frequencies dram in
  if (0 <=? idx) && (idx <? Z.of_nat (length (frequencies dram))) then
    Some {| frequencies := <[Z.to_nat idx := v]> (frequencies dram);
            num_frequencies := to_u32 (idx + 1);
            hbb := hbb dram |}
  else None.

(** [for (int i = 0; i < bound; i++) body], on a state of type [S]. *)
Fixpoint for_from {S : Type} (iters : nat) (i : Z) (body : Z → S → option S)
  (s : S) : option S :=
  match iters with
  | O => Some s
  | Datatypes.S iters' => s' ← body i s; for_from iters' (i + 1) body s'
  end.

Definition for_lt {S : Type} (bound : Z) (body : Z → S → option S) (s : S)
  : option S :=
  for_from (Z.to_nat bound) 0 body s.

(** What [smem_dram_frequencies_show] prints: [frequencies[i]] for
    [i < num_frequencies]. *)
Definition smem_dram_frequencies_show (dram : smem_dram) : list Z :=
  take (Z.to_nat (num_frequencies dram)) (frequencies dram).

(** The newline character, code 10. *)
Definition newline : Ascii.ascii := Eval cbv in Ascii.ascii_of_nat 10.

(** [seq_printf(s, "%lu\n", v)] on the text [s] of the seq_file: the
    decimal digits of [v], then a newline. *)
Definition seq_printf_lu (s : string) (v : Z) : string :=
  s +:+ DecimalString.NilZero.string_of_uint (N.to_uint (Z.to_N v))
    +:+ String newline "".

(** The text [seq_printf] produces for a list of values, one per line. *)
Fixpoint lines_of (l : list Z) : string :=
  match l with
  | [] => ""
  | v :: l' =>
      DecimalString.NilZero.string_of_uint (N.to_uint (Z.to_N v))
      +:+ String newline (lines_of l')
  end.

(** No character of the string is a newline. *)
Fixpoint no_newline (s : string) : Prop :=
  match s with
  | "" => True
  | String c s' => c ≠ newline ∧ no_newline s'
  end.

(** [smem_dram_frequencies_show] itself, on the text of the seq_file: the
    loop [for (int i = 0; i < dram->num_frequencies; i++)] prints
    [dram->frequencies[i]]; a read past the array is a fault.  The result is
    the new text and the value returned. *)
Definition smem_dram_frequencies_show_seq (dram : smem_dram) (s : string)
  : option (string * Z) :=
  s' ← for_lt (num_frequencies dram)
         (λ i s, v ← frequencies dram !! Z.to_nat i; Some (seq_printf_lu s v))
         s;
  Some (s', 0).

(** ** The extractors *)

Section Target.

(** The kernel configuration the driver is built for. *)
Variable CONFIG_PHYS_ADDR_T_64BIT : bool.

Local Abbreviation sizeof := (sizeof CONFIG_PHYS_ADDR_T_64BIT).
Local Abbreviation offsetof := (offsetof CONFIG_PHYS_ADDR_T_64BIT).

(** Address of [details->ddr_freq_tbl.ddr_freq[i]] for [details] of struct
    type [details_t] with a frequency plan of struct type [plan_t]. *)
Definition ddr_freq_addr (details_t plan_t : ctype) (i : Z) : Z :=
  offsetof details_t "ddr_freq_tbl" + offsetof plan_t "ddr_freq"
  + i * sizeof ddr_freq_table.

(** The body the three loops share:
    [if (freq_entry->freq_khz && freq_entry->enabled)
       dram->frequencies[dram->num_frequencies++] = 1000 * freq_entry->freq_khz;]
    The product is computed in [unsigned int]. *)
Definition freq_entry_body (data : list byte) (freq_entry : Z)
  (dram : smem_dram) : option smem_dram :=
  freq_khz ← load_u32 data (freq_entry + offsetof ddr_freq_table "freq_khz");
  if freq_khz =? 0 then Some dram
  else
    enabled ← load_u8 data (freq_entry + offsetof ddr_freq_table "enabled");
    if enabled =? 0 then Some dram
    else push_frequency dram (to_u32 (1000 * freq_khz)).

(** One iteration of the loops:
    [freq_entry = &details->ddr_freq_tbl.ddr_freq[i]], then the body on it.
    [ddr_freq] is declared with [array_count plan_t "ddr_freq"] elements; an
    element outside the declared array is not an object the code may
    read, even where the bytes belong to the buffer (undefined behaviour in
    C), so reading it is a fault. *)
Definition ddr_freq_entry (details_t plan_t : ctype) (data : list byte)
  (i : Z) (dram : smem_dram) : option smem_dram :=
  if (0 <=? i) && (i <? array_count plan_t "ddr_freq")
  then freq_entry_body data (ddr_freq_addr details_t plan_t i) dram
  else None.

Definition smem_dram_parse_v3_data (dram : smem_dram) (data : list byte)
  (additional_freq_entry : bool) : option smem_dram :=
  let num_freq_entries := MAX_DDR_FREQ_NUM_V3 in
  let num_freq_entries :=
    if additional_freq_entry then num_freq_entries + 1 else num_freq_entries in
  for_lt num_freq_entries
    (λ i dram, ddr_freq_entry ddr_details_v3 ddr_freq_plan_v3 data i dram)
    dram.

(** Address of [details->highest_bank_addr_bit[chan][rank]] in a
    [struct ddr_details_v4]. *)
Definition highest_bank_addr_bit_addr (chan rank : Z) : Z :=
  offsetof ddr_details_v4 "highest_bank_addr_bit"
  + chan * sizeof (array u8 MAX_RANK_NUM) + rank * sizeof u8.

Definition smem_dram_parse_v4_data (dram : smem_dram) (data : list byte)
  : option smem_dram :=
  v ← load_u8 data (highest_bank_addr_bit_addr 0 0);
  let dram := set_hbb dram v in
  for_lt MAX_DDR_FREQ_NUM_V3
    (λ i dram, ddr_freq_entry ddr_details_v4 ddr_freq_plan_v3 data i dram)
    dram.

(** Address of [region[idx].highest_bank_addr_bit] for
    [struct ddr_regions_v5 *region = &details->ddr_regions]: the pointer is
    to the regions header, so [idx] counts headers, not region records. *)
Definition regions_hbb_addr (idx : Z) : Z :=
  let region := offsetof ddr_details_v5 "ddr_regions" in
  region + idx * sizeof ddr_regions_v5
  + offsetof ddr_regions_v5 "highest_bank_addr_bit".

(** Address of [details->ddr_regions.ddr_region[idx]], the record [idx] of
    the trailing array. *)
Definition ddr_region_addr (idx : Z) : Z :=
  offsetof ddr_details_v5 "ddr_regions" + offsetof ddr_regions_v5 "ddr_region"
  + idx * sizeof ddr_region_v5.

Definition smem_dram_parse_v5_data (dram : smem_dram) (data : list byte)
  : option smem_dram :=
  v ← load_u32 data (regions_hbb_addr 0);
  let dram := set_hbb dram v in
  for_lt MAX_DDR_FREQ_NUM_V5
    (λ i dram, ddr_freq_entry ddr_details_v5 ddr_freq_plan_v5 data i dram)
    dram.

(** ** Guessing the layout from the size *)

(** Error numbers of [linux/errno.h]; positive and at most [MAX_ERRNO]. *)
Variables ENODATA EINVAL ENOMEM : Z.
Definition MAX_ERRNO : Z := 4095.

Definition smem_dram_infer_struct_version (size : Z) : Z :=
  if size <? sizeof ddr_details_v3 then - EINVAL
  else if size =? sizeof ddr_details_v3 then INFO_V3
  else if size =? sizeof ddr_details_v3 + sizeof ddr_freq_table
  then INFO_V3_WITH_14_FREQS
  else if size =? sizeof ddr_details_v4 then INFO_V4
  else if size =? sizeof ddr_details_v5 + 4 * sizeof ddr_region_v5 then INFO_V5
  else if size =? sizeof ddr_details_v5 + 6 * sizeof ddr_region_v5
  then INFO_V5_WITH_6_REGIONS
  else INFO_UNKNOWN.

(** ** The entry point and the query *)

(** A [struct dentry *]: an error pointer or the address of a dentry. *)
Inductive dentry : Type :=
| ERR_PTR (err : Z)
| dentry_at (addr : Z).

#[global] Instance dentry_eq_dec : EqDecision dentry.
Proof. solve_decision. Defined.

(** The underlying type of [enum ddr_info_version] is the compiler's
    choice; GCC and Clang take [unsigned int] for an enum without negative
    enumerators.  [ver = smem_dram_infer_struct_version(...)] converts to
    it. *)
Variable ENUM_IS_UNSIGNED : bool.

Definition to_ddr_info_version (v : Z) : Z :=
  if ENUM_IS_UNSIGNED then to_u32 v else v.

(** [smem_dram_parse], as a step on the global [__dram].  [smem_item] is
    what [qcom_smem_get] found ([None] for an error pointer or NULL, else the
    item, whose length is [actual_size]); [kzalloc_ok] tells whether
    [devm_kzalloc] succeeds; [debugfs_dir] is what [debugfs_create_dir]
    returns.  The result is the returned pointer and the new value of
    [__dram]. *)
Definition smem_dram_parse (__dram : option smem_dram)
  (smem_item : option (list byte)) (kzalloc_ok : bool) (debugfs_dir : dentry)
  : option (dentry * option smem_dram) :=
  match smem_item with
  | None => Some (ERR_PTR (- ENODATA), __dram)
  | Some data =>
      let actual_size := Z.of_nat (length data) in
      let ver := to_ddr_info_version (smem_dram_infer_struct_version actual_size) in
      if ver <? 0 then Some (ERR_PTR (- ENODATA), __dram)
      else if ver =? INFO_UNKNOWN then Some (ERR_PTR (- EINVAL), __dram)
      else if negb kzalloc_ok then Some (ERR_PTR (- ENOMEM), __dram)
      else
        let dram := kzalloc_smem_dram in
        let publish (parsed : option smem_dram) :=
          dram ← parsed; Some (debugfs_dir, Some dram) in
        if ver =? INFO_V3 then
          publish (smem_dram_parse_v3_data dram data false)
        else if ver =? INFO_V3_WITH_14_FREQS then
          publish (smem_dram_parse_v3_data dram data true)
        else if ver =? INFO_V4 then
          publish (smem_dram_parse_v4_data dram data)
        else if (ver =? INFO_V5) || (ver =? INFO_V5_WITH_6_REGIONS) then
          publish (smem_dram_parse_v5_data dram data)
        else Some (ERR_PTR (- EINVAL), __dram)
  end.

Definition qcom_smem_dram_get_hbb (__dram : option smem_dram) : Z :=
  match __dram with
  | Some dram => hbb dram
  | None => - ENODATA
  end.

(** ** What one table entry contributes *)

(** The frequencies the loop body appends for the entry at [freq_entry]:
    none when [freq_khz] or [enabled] is zero, else the product
    [1000 * freq_khz] as [unsigned int]. *)
Definition entry_hz (data : list byte) (freq_entry : Z) : list Z :=
  match load_u32 data (freq_entry + offsetof ddr_freq_table "freq_khz"),
        load_u8 data (freq_entry + offsetof ddr_freq_table "enabled") with
  | Some freq_khz, Some enabled =>
      if (freq_khz =? 0) || (enabled =? 0) then []
      else [to_u32 (1000 * freq_khz)]
  | _, _ => []
  end.

(** A [struct smem_dram] whose array has its declared length and whose count
    is within it. *)
Definition dram_wf (dram : smem_dram) : Prop :=
  length (frequencies dram) = Z.to_nat MAX_DDR_FREQ_NUM_V5
  ∧ 0 ≤ num_frequencies dram ≤ MAX_DDR_FREQ_NUM_V5.

(** The identifiers [smem_dram_parse] decodes. *)
Definition known_version (ver : Z) : Prop :=
  INFO_V3 ≤ ver ≤ INFO_V5_WITH_6_REGIONS.

(** The identifiers whose extractor indexes [ddr_freq] inside its declared
    array: all the known ones but [INFO_V3_WITH_14_FREQS], whose fourteenth
    iteration reads [ddr_freq[13]] of the 13 elements of
    [struct ddr_freq_plan_v3]. *)
Definition decodable_version (ver : Z) : Prop :=
  known_version ver ∧ ver ≠ INFO_V3_WITH_14_FREQS.

(** Addresses of the table entries that the loop of the extractor run by
    the [switch] of [smem_dram_parse] for [ver] indexes, in loop order.  For
    [INFO_V3_WITH_14_FREQS] the last of them is [ddr_freq[13]], outside the
    declared array: the walk stops there with a fault. *)
Definition walked_entries (ver : Z) : list Z :=
  if ver =? INFO_V3 then
    ddr_freq_addr ddr_details_v3 ddr_freq_plan_v3
      <$> seqZ 0 MAX_DDR_FREQ_NUM_V3
  else if ver =? INFO_V3_WITH_14_FREQS then
    ddr_freq_addr ddr_details_v3 ddr_freq_plan_v3
      <$> seqZ 0 (MAX_DDR_FREQ_NUM_V3 + 1)
  else if ver =? INFO_V4 then
    ddr_freq_addr ddr_details_v4 ddr_freq_plan_v3
      <$> seqZ 0 MAX_DDR_FREQ_NUM_V3
  else if (ver =? INFO_V5) || (ver =? INFO_V5_WITH_6_REGIONS) then
    ddr_freq_addr ddr_details_v5 ddr_freq_plan_v5
      <$> seqZ 0 MAX_DDR_FREQ_NUM_V5
  else [].

(** The value the extractor for [ver] leaves in [hbb] of a zeroed
    [struct smem_dram]; none for [INFO_V3_WITH_14_FREQS], whose extractor
    does not complete. *)
Definition extracted_hbb (ver : Z) (data : list byte) : option Z :=
  if ver =? INFO_V3 then Some 0
  else if ver =? INFO_V4 then
    to_u8 <$> load_u8 data (highest_bank_addr_bit_addr 0 0)
  else if (ver =? INFO_V5) || (ver =? INFO_V5_WITH_6_REGIONS) then
    to_u8 <$> load_u32 data (regions_hbb_addr 0)
  else None.

(** [dram] is the complete decoding of [data] as layout [ver]: every field
    of the struct holds what the extractor for [ver] computes from [data]. *)
Definition decodes (ver : Z) (data : list byte) (dram : smem_dram) : Prop :=
  dram_wf dram
  ∧ smem_dram_frequencies_show dram = flat_map (entry_hz data) (walked_entries ver)
  ∧ num_frequencies dram
    = Z.of_nat (length (flat_map (entry_hz data) (walked_entries ver)))
  ∧ Some (hbb dram) = extracted_hbb ver data.

(** The buffer size [smem_dram_infer_struct_version] compares against for
    each identifier it can answer. *)
Definition layout_size (ver : Z) : Z :=
  if ver =? INFO_V3 then sizeof ddr_details_v3
  else if ver =? INFO_V3_WITH_14_FREQS
  then sizeof ddr_details_v3 + sizeof ddr_freq_table
  else if ver =? INFO_V4 then sizeof ddr_details_v4
  else if ver =? INFO_V5 then sizeof ddr_details_v5 + 4 * sizeof ddr_region_v5
  else if ver =? INFO_V5_WITH_6_REGIONS
  then sizeof ddr_details_v5 + 6 * sizeof ddr_region_v5
  else 0.

(** ** Histories of calls *)

(** One call of [smem_dram_parse]: what [qcom_smem_get] finds, whether
    [devm_kzalloc] succeeds, what [debugfs_create_dir] returns. *)
Definition call : Type := option (list byte) * bool * dentry.

(** A run of calls to [smem_dram_parse] from the global [__dram].  The
    result lists the pointers returned and gives the final [__dram]. *)
Fixpoint parse_history (calls : list call) (__dram : option smem_dram)
  : option (list dentry * option smem_dram) :=
  match calls with
  | [] => Some ([], __dram)
  | (smem_item, kzalloc_ok, debugfs_dir) :: calls' =>
      r ← smem_dram_parse __dram smem_item kzalloc_ok debugfs_dir;
      h ← parse_history calls' r.2;
      Some (r.1 :: h.1, h.2)
  end.

(** The call passes every error return of [smem_dram_parse]: SMEM has the
    item, its size is that of one of the five layouts, and the allocation
    succeeds. *)
Definition call_succeeds (c : call) : bool :=
  match c with
  | (Some data, kzalloc_ok, _) =>
      kzalloc_ok
      && (INFO_V3 <=? smem_dram_infer_struct_version (Z.of_nat (length data)))
      && (smem_dram_infer_struct_version (Z.of_nat (length data))
          <=? INFO_V5_WITH_6_REGIONS)
  | (None, _, _) => false
  end.

(** The call runs the V3 extractor with the additional entry, which reads
    [ddr_freq[13]] out of its array: SMEM has an item of the size of
    [INFO_V3_WITH_14_FREQS] and the allocation succeeds. *)
Definition call_reads_past_ddr_freq (c : call) : bool :=
  match c with
  | (Some data, kzalloc_ok, _) =>
      kzalloc_ok
      && (smem_dram_infer_struct_version (Z.of_nat (length data))
          =? INFO_V3_WITH_14_FREQS)
  | (None, _, _) => false
  end.

(** The item of the last call of the run that succeeds, [earlier] when
    there is none. *)
Fixpoint most_recent_parsed (calls : list call) (earlier : option (list byte))
  : option (list byte) :=
  match calls with
  | [] => earlier
  | c :: calls' =>
      most_recent_parsed calls' (if call_succeeds c then c.1.1 else earlier)
  end.

(** What a call returns: the result of [debugfs_create_dir] when it
    succeeds, else an error pointer. *)
Definition returned (c : call) (ret : dentry) : Prop :=
  if call_succeeds c then ret = c.2 else ∃ err, ret = ERR_PTR err.

(** [__dram] holds the complete decoding of [parsed], or nothing when
    nothing was parsed. *)
Definition publishes (parsed : option (list byte))
  (__dram : option smem_dram) : Prop :=
  match parsed with
  | None => __dram = None
  | Some data =>
      ∃ dram,
        __dram = Some dram
        ∧ decodable_version
            (smem_dram_infer_struct_version (Z.of_nat (length data)))
        ∧ decodes (smem_dram_infer_struct_version (Z.of_nat (length data)))
            data dram
  end.

(** [__dram] is what a single call on [parsed] publishes on a system that
    has parsed nothing before. *)
Definition publishes_afresh (parsed : option (list byte))
  (__dram : option smem_dram) : Prop :=
  match parsed with
  | None => __dram = None
  | Some data =>
      decodable_version
        (smem_dram_infer_struct_version (Z.of_nat (length data)))
      ∧ ∀ st dir,
          smem_dram_parse st (Some data) true dir = Some (dir, __dram)
  end.

(** The entry at [freq_entry] passes the test of the loop body: both fields
    are inside the buffer and non-zero. *)
Definition entry_enabled (data : list byte) (freq_entry : Z) : bool :=
  match load_u32 data (freq_entry + offsetof ddr_freq_table "freq_khz"),
        load_u8 data (freq_entry + offsetof ddr_freq_table "enabled") with
  | Some freq_khz, Some enabled => negb (freq_khz =? 0) && negb (enabled =? 0)
  | _, _ => false
  end.

(** The slots of [frequencies] from [num_frequencies] on are zero. *)
Definition tail_zero (dram : smem_dram) : Prop :=
  drop (Z.to_nat (num_frequencies dram)) (frequencies dram)
  = replicate (length (frequencies dram) - Z.to_nat (num_frequencies dram)) 0.

(** The array has its declared length and is zero past the count. *)
Definition array_ok (dram : smem_dram) : Prop :=
  length (frequencies dram) = Z.to_nat MAX_DDR_FREQ_NUM_V5 ∧ tail_zero dram.

(** ** Sample buffers (arm64 layout) *)

Definition byte_of (z : Z) : byte :=
  default x00 (Byte.of_N (Z.to_N (z mod 256))).

Definition le32_bytes (z : Z) : list byte :=
  [byte_of z; byte_of (z / 2 ^ 8); byte_of (z / 2 ^ 16); byte_of (z / 2 ^ 24)].

(** A frequency-table entry: [freq_khz], [enabled], three bytes of padding. *)
Definition entry_bytes (freq_khz enabled : Z) : list byte :=
  le32_bytes freq_khz ++ [byte_of enabled; x00; x00; x00].

Definition zeros (n : Z) : list byte := replicate (Z.to_nat n) x00.

(** 224 bytes: the thirteen table entries are zero; the eight bytes after
    them, where a fourteenth entry would sit, hold 1600000 kHz, enabled. *)
Definition sample_v4_slot13 : list byte :=
  zeros 72 ++ zeros (13 * 8) ++ entry_bytes 1600000 1 ++ zeros 40.

(** 224 bytes: entries (0, 1), (1600000, 0), (1600000, 1), nine empty
    entries, (800000, 1); [highest_bank_addr_bit[0][0] = 3],
    [highest_bank_addr_bit[1][0] = 7]. *)
Definition sample_v4 : list byte :=
  zeros 72
  ++ entry_bytes 0 1 ++ entry_bytes 1600000 0 ++ entry_bytes 1600000 1
  ++ zeros (9 * 8) ++ entry_bytes 800000 1
  ++ zeros 25 ++ [x03; x00; x07] ++ zeros 20.

(** 200 bytes: entries 0 and 1 are both (1600000, 1). *)
Definition sample_v3_dup : list byte :=
  zeros 72 ++ entry_bytes 1600000 1 ++ entry_bytes 1600000 1 ++ zeros 112.

(** 200 bytes: entry 0 is (2^29, 1). *)
Definition sample_v3_wrap : list byte :=
  zeros 72 ++ entry_bytes (2 ^ 29) 1 ++ zeros 120.

(** 208 bytes: entry 13 is (1600000, 1), the others are empty. *)
Definition sample_v3_14 : list byte :=
  zeros 72 ++ zeros (13 * 8) ++ entry_bytes 1600000 1 ++ zeros 24.

(** A dentry for the debugfs directory. *)
Definition sample_dir : dentry := dentry_at 4096.

(** 424 bytes, four regions: the header field [highest_bank_addr_bit] is
    [hbb_field]; the first record of the trailing array starts with
    [region0]. *)
Definition sample_v5 (hbb_field : Z) (region0 : list byte) : list byte :=
  zeros 72 ++ entry_bytes 1600000 1 ++ zeros 176
  ++ le32_bytes hbb_field ++ zeros 4
  ++ region0 ++ zeros (160 - Z.of_nat (length region0)).

(** 504 bytes, six regions. *)
Definition sample_v5_6 (hbb_field : Z) : list byte :=
  zeros 256 ++ le32_bytes hbb_field ++ zeros 244.

(** Error numbers are positive and at most [MAX_ERRNO]. *)
Hypothesis EINVAL_range : 0 < EINVAL ≤ MAX_ERRNO.
Hypothesis ENODATA_range : 0 < ENODATA ≤ MAX_ERRNO.

(** ** Loads *)

Lemma byte_val_range (b : byte) : 0 ≤ byte_val b < 256.
Proof.
  unfold byte_val. pose proof (Byte.to_N_bounded b). lia.
Qed.

Lemma load_u8_in_bounds (data : list byte) (off : Z) :
  0 ≤ off < Z.of_nat (length data) →
  ∃ v, load_u8 data off = Some v ∧ 0 ≤ v < 256.
Proof.
  intros Hoff. unfold load_u8.
  destruct (off <? 0) eqn:Hneg; [lia|].
  destruct (lookup_lt_is_Some_2 data (Z.to_nat off)) as [b Hb]; [lia|].
  exists (byte_val b). rewrite Hb. split; [done|apply byte_val_range].
Qed.

Lemma load_u32_in_bounds (data : list byte) (off : Z) :
  0 ≤ off → off + 4 ≤ Z.of_nat (length data) →
  ∃ v, load_u32 data off = Some v ∧ 0 ≤ v < 2 ^ 32.
Proof.
  intros H0 H4. unfold load_u32.
  destruct (load_u8_in_bounds data off) as (b0 & -> & ?); [lia|].
  destruct (load_u8_in_bounds data (off + 1)) as (b1 & -> & ?); [lia|].
  destruct (load_u8_in_bounds data (off + 2)) as (b2 & -> & ?); [lia|].
  destruct (load_u8_in_bounds data (off + 3)) as (b3 & -> & ?); [lia|].
  eexists. split; [reflexivity|]. lia.
Qed.

(** ** The loop over the frequency table *)

Lemma show_push (dram dram' : smem_dram) (v : Z) :
  length (frequencies dram) = Z.to_nat MAX_DDR_FREQ_NUM_V5 →
  push_frequency dram v = Some dram' →
  0 ≤ num_frequencies dram < MAX_DDR_FREQ_NUM_V5
  ∧ hbb dram' = hbb dram
  ∧ length (frequencies dram') = Z.to_nat MAX_DDR_FREQ_NUM_V5
  ∧ num_frequencies dram' = num_frequencies dram + 1
  ∧ smem_dram_frequencies_show dram' = smem_dram_frequencies_show dram ++ [v].
Proof.
  intros Hlen. unfold push_frequency, MAX_DDR_FREQ_NUM_V5 in *.
  destruct (0 <=? num_frequencies dram) eqn:H0; [|done].
  destruct (num_frequencies dram <? Z.of_nat (length (frequencies dram))) eqn:H1;
    [|done].
  simpl. intros [= <-]. unfold smem_dram_frequencies_show, to_u32. simpl.
  assert (0 ≤ num_frequencies dram < 14) as Hn by lia.
  rewrite Z.mod_small by lia.
  split; [done|]. split; [done|]. split; [by rewrite length_insert|].
  split; [done|].
  replace (Z.to_nat (num_frequencies dram + 1))
    with (S (Z.to_nat (num_frequencies dram))) by lia.
  rewrite (take_S_r _ _ v).
  - by rewrite take_insert_ge.
  - apply list_lookup_insert_eq. lia.
Qed.

Lemma freq_entry_body_spec (data : list byte) (addr : Z) (dram : smem_dram) :
  0 ≤ addr → addr + sizeof ddr_freq_table ≤ Z.of_nat (length data) →
  length (frequencies dram) = Z.to_nat MAX_DDR_FREQ_NUM_V5 →
  0 ≤ num_frequencies dram < MAX_DDR_FREQ_NUM_V5 →
  ∃ dram',
    freq_entry_body data addr dram = Some dram'
    ∧ hbb dram' = hbb dram
    ∧ length (frequencies dram') = Z.to_nat MAX_DDR_FREQ_NUM_V5
    ∧ num_frequencies dram'
      = num_frequencies dram + Z.of_nat (length (entry_hz data addr))
    ∧ smem_dram_frequencies_show dram'
      = smem_dram_frequencies_show dram ++ entry_hz data addr.
Proof.
  intros Haddr Hend Hlen Hnum.
  change (sizeof ddr_freq_table) with 8 in Hend.
  unfold freq_entry_body, entry_hz.
  change (offsetof ddr_freq_table "freq_khz") with 0.
  change (offsetof ddr_freq_table "enabled") with 4.
  destruct (load_u32_in_bounds data (addr + 0)) as (f & -> & Hf); [lia..|].
  destruct (load_u8_in_bounds data (addr + 4)) as (e & -> & He); [lia|].
  simpl.
  destruct (f =? 0) eqn:Hf0; simpl.
  { exists dram. rewrite app_nil_r. repeat split; (done || lia). }
  destruct (e =? 0) eqn:He0; simpl.
  { exists dram. rewrite app_nil_r. repeat split; (done || lia). }
  destruct (push_frequency dram (to_u32 (1000 * f))) as [dram'|] eqn:Hpush.
  - exists dram'. destruct (show_push _ _ _ Hlen Hpush) as (_ & ? & ? & ? & ?).
    repeat split; (done || lia).
  - exfalso. unfold push_frequency, MAX_DDR_FREQ_NUM_V5 in *.
    destruct (0 <=? num_frequencies dram) eqn:H0; [|lia].
    destruct (num_frequencies dram <? Z.of_nat (length (frequencies dram))) eqn:H1;
      [done|lia].
Qed.

Lemma entry_hz_length (data : list byte) (addr : Z) :
  (length (entry_hz data addr) ≤ 1)%nat.
Proof.
  unfold entry_hz.
  destruct (load_u32 _ _) as [f|]; [|simpl; lia].
  destruct (load_u8 _ _) as [e|]; [|simpl; lia].
  destruct ((f =? 0) || (e =? 0)); simpl; lia.
Qed.

Lemma seqZ_step (i : Z) (n : nat) :
  seqZ i (Z.of_nat (S n)) = i :: seqZ (i + 1) (Z.of_nat n).
Proof.
  rewrite seqZ_cons by lia. f_equal. f_equal; lia.
Qed.

Lemma flat_map_seqZ_length (f : Z → list Z) (i : Z) (n : nat) :
  (∀ j, (length (f j) ≤ 1)%nat) →
  (length (flat_map f (seqZ i (Z.of_nat n))) ≤ n)%nat.
Proof.
  intros Hf. revert i. induction n as [|n IH]; intros i.
  - simpl. lia.
  - rewrite seqZ_step. simpl. rewrite length_app.
    specialize (IH (i + 1)). specialize (Hf i). lia.
Qed.

(** The loop of the three extractors, for any placement [addr] of the
    entries inside the buffer: it terminates without a fault, leaves [hbb]
    alone and appends the contributions of the entries in index order. *)
Lemma for_from_freq_entries (data : list byte) (addr : Z → Z) (iters : nat) :
  ∀ (i : Z) (dram : smem_dram),
    (∀ j, i ≤ j < i + Z.of_nat iters →
          0 ≤ addr j ∧ addr j + sizeof ddr_freq_table ≤ Z.of_nat (length data)) →
    length (frequencies dram) = Z.to_nat MAX_DDR_FREQ_NUM_V5 →
    0 ≤ num_frequencies dram →
    num_frequencies dram + Z.of_nat iters ≤ MAX_DDR_FREQ_NUM_V5 →
    ∃ dram',
      for_from iters i (λ i dram, freq_entry_body data (addr i) dram) dram
      = Some dram'
      ∧ hbb dram' = hbb dram
      ∧ length (frequencies dram') = Z.to_nat MAX_DDR_FREQ_NUM_V5
      ∧ num_frequencies dram'
        = num_frequencies dram
          + Z.of_nat (length (flat_map (λ j, entry_hz data (addr j))
                                       (seqZ i (Z.of_nat iters))))
      ∧ smem_dram_frequencies_show dram'
        = smem_dram_frequencies_show dram
          ++ flat_map (λ j, entry_hz data (addr j)) (seqZ i (Z.of_nat iters)).
Proof.
  induction iters as [|iters IH]; intros i dram Hin Hlen Hnum Hcap.
  - exists dram. simpl. rewrite app_nil_r. repeat split; (done || lia).
  - destruct (Hin i) as [Ha0 Ha1]; [lia|].
    destruct (freq_entry_body_spec data (addr i) dram)
      as (dram1 & Hbody & Hhbb1 & Hlen1 & Hnum1 & Hshow1); [done|done|done|lia|].
    pose proof (entry_hz_length data (addr i)) as Hle.
    destruct (IH (i + 1) dram1) as (dram2 & Hrest & Hhbb2 & Hlen2 & Hnum2 & Hshow2).
    + intros j Hj. apply Hin. lia.
    + done.
    + lia.
    + lia.
    + exists dram2. rewrite seqZ_step.
      cbn [for_from flat_map]. rewrite Hbody. cbn [mbind option_bind].
      rewrite Hrest, length_app, Hshow2, Hshow1, <- app_assoc.
      repeat split; (done || congruence || lia).
Qed.

(** ** Layout facts *)

Lemma sizeof_layouts :
  sizeof ddr_freq_table = 8
  ∧ sizeof ddr_region_v5 = 40
  ∧ sizeof ddr_regions_v5 = 48
  ∧ sizeof ddr_details_v3 = (if CONFIG_PHYS_ADDR_T_64BIT then 200 else 184)
  ∧ sizeof ddr_details_v4 = (if CONFIG_PHYS_ADDR_T_64BIT then 224 else 208)
  ∧ sizeof ddr_details_v5 = (if CONFIG_PHYS_ADDR_T_64BIT then 264 else 248).
Proof. destruct CONFIG_PHYS_ADDR_T_64BIT; repeat split; reflexivity. Qed.

Lemma ddr_freq_addr_v3 (i : Z) :
  ddr_freq_addr ddr_details_v3 ddr_freq_plan_v3 i
  = (if CONFIG_PHYS_ADDR_T_64BIT then 72 else 68) + i * 8.
Proof. unfold ddr_freq_addr. destruct CONFIG_PHYS_ADDR_T_64BIT; reflexivity. Qed.

Lemma ddr_freq_addr_v4 (i : Z) :
  ddr_freq_addr ddr_details_v4 ddr_freq_plan_v3 i
  = (if CONFIG_PHYS_ADDR_T_64BIT then 72 else 68) + i * 8.
Proof. unfold ddr_freq_addr. destruct CONFIG_PHYS_ADDR_T_64BIT; reflexivity. Qed.

Lemma ddr_freq_addr_v5 (i : Z) :
  ddr_freq_addr ddr_details_v5 ddr_freq_plan_v5 i
  = (if CONFIG_PHYS_ADDR_T_64BIT then 72 else 68) + i * 8.
Proof. unfold ddr_freq_addr. destruct CONFIG_PHYS_ADDR_T_64BIT; reflexivity. Qed.

Lemma highest_bank_addr_bit_addr_eq (chan rank : Z) :
  highest_bank_addr_bit_addr chan rank
  = (if CONFIG_PHYS_ADDR_T_64BIT then 201 else 189) + chan * 2 + rank * 1.
Proof.
  unfold highest_bank_addr_bit_addr.
  destruct CONFIG_PHYS_ADDR_T_64BIT; reflexivity.
Qed.

Lemma regions_hbb_addr_eq (idx : Z) :
  regions_hbb_addr idx
  = (if CONFIG_PHYS_ADDR_T_64BIT then 256 else 240) + idx * 48.
Proof.
  unfold regions_hbb_addr.
  destruct CONFIG_PHYS_ADDR_T_64BIT; cbv zeta;
    match goal with |- ?a + ?i * ?b + ?c = ?r =>
      let a' := eval vm_compute in a in
      let b' := eval vm_compute in b in
      let c' := eval vm_compute in c in
      change (a' + i * b' + c' = r) end; lia.
Qed.

Lemma ddr_region_addr_eq (idx : Z) :
  ddr_region_addr idx
  = (if CONFIG_PHYS_ADDR_T_64BIT then 264 else 248) + idx * 40.
Proof.
  unfold ddr_region_addr.
  destruct CONFIG_PHYS_ADDR_T_64BIT; reflexivity.
Qed.

(** ** The classifier *)

Lemma layout_size_eq (ver : Z) :
  known_version ver →
  layout_size ver
  = if CONFIG_PHYS_ADDR_T_64BIT
    then (if ver =? INFO_V3 then 200 else if ver =? INFO_V3_WITH_14_FREQS then 208
          else if ver =? INFO_V4 then 224 else if ver =? INFO_V5 then 424 else 504)
    else (if ver =? INFO_V3 then 184 else if ver =? INFO_V3_WITH_14_FREQS then 192
          else if ver =? INFO_V4 then 208 else if ver =? INFO_V5 then 408 else 488).
Proof.
  unfold known_version, layout_size, INFO_V3, INFO_V3_WITH_14_FREQS, INFO_V4,
    INFO_V5, INFO_V5_WITH_6_REGIONS.
  intros Hver.
  assert (ver = 1 ∨ ver = 2 ∨ ver = 3 ∨ ver = 4 ∨ ver = 5)
    as [->|[->|[->|[->| ->]]]] by lia;
    destruct CONFIG_PHYS_ADDR_T_64BIT; reflexivity.
Qed.

Lemma infer_layout_size (ver : Z) :
  known_version ver → smem_dram_infer_struct_version (layout_size ver) = ver.
Proof.
  unfold known_version, layout_size, smem_dram_infer_struct_version,
    INFO_V3, INFO_V3_WITH_14_FREQS, INFO_V4, INFO_V5, INFO_V5_WITH_6_REGIONS.
  intros Hver.
  assert (ver = 1 ∨ ver = 2 ∨ ver = 3 ∨ ver = 4 ∨ ver = 5)
    as [->|[->|[->|[->| ->]]]] by lia;
    destruct CONFIG_PHYS_ADDR_T_64BIT; reflexivity.
Qed.

Lemma infer_known_size (size : Z) :
  known_version (smem_dram_infer_struct_version size) →
  size = layout_size (smem_dram_infer_struct_version size).
Proof using EINVAL_range.
  unfold MAX_ERRNO in *.
  unfold known_version, smem_dram_infer_struct_version, layout_size,
    INFO_UNKNOWN, INFO_V3, INFO_V3_WITH_14_FREQS, INFO_V4, INFO_V5,
    INFO_V5_WITH_6_REGIONS.
  generalize (sizeof ddr_details_v3), (sizeof ddr_freq_table),
    (sizeof ddr_details_v4), (sizeof ddr_details_v5), (sizeof ddr_region_v5).
  intros s3 sf s4 s5 sr.
  destruct (Z.ltb_spec size s3); [lia|].
  destruct (Z.eqb_spec size s3); [simpl; lia|].
  destruct (Z.eqb_spec size (s3 + sf)); [simpl; lia|].
  destruct (Z.eqb_spec size s4); [simpl; lia|].
  destruct (Z.eqb_spec size (s5 + 4 * sr)); [simpl; lia|].
  destruct (Z.eqb_spec size (s5 + 6 * sr)); [simpl; lia|].
  lia.
Qed.

(** ** The extractors on a buffer of the classified size *)

Lemma flat_map_fmap (f : Z → list Z) (g : Z → Z) (l : list Z) :
  flat_map f (g <$> l) = flat_map (λ j, f (g j)) l.
Proof.
  induction l as [|x l IH]; [done|].
  rewrite fmap_cons. cbn [flat_map]. by rewrite IH.
Qed.

Lemma for_lt_freq_entries (data : list byte) (details_t plan_t : ctype)
  (base bound : Z) (dram : smem_dram) :
  (∀ i, ddr_freq_addr details_t plan_t i = base + i * 8) →
  0 ≤ base → 0 ≤ bound ≤ MAX_DDR_FREQ_NUM_V5 →
  base + bound * 8 ≤ Z.of_nat (length data) →
  length (frequencies dram) = Z.to_nat MAX_DDR_FREQ_NUM_V5 →
  num_frequencies dram = 0 →
  ∃ dram',
    for_lt bound
      (λ i dram, freq_entry_body data (ddr_freq_addr details_t plan_t i) dram)
      dram = Some dram'
    ∧ hbb dram' = hbb dram
    ∧ dram_wf dram'
    ∧ smem_dram_frequencies_show dram'
      = flat_map (entry_hz data) (ddr_freq_addr details_t plan_t <$> seqZ 0 bound)
    ∧ num_frequencies dram'
      = Z.of_nat (length (flat_map (entry_hz data)
                            (ddr_freq_addr details_t plan_t <$> seqZ 0 bound))).
Proof.
  intros Haddr Hbase Hbound Hfit Hlen Hnum.
  destruct (for_from_freq_entries data (ddr_freq_addr details_t plan_t)
              (Z.to_nat bound) 0 dram)
    as (dram' & Hrun & Hhbb & Hlen' & Hnum' & Hshow).
  - intros j Hj. rewrite Haddr. change (sizeof ddr_freq_table) with 8. lia.
  - done.
  - lia.
  - lia.
  - rewrite Z2Nat.id in * by lia.
    exists dram'. unfold for_lt. rewrite flat_map_fmap.
    pose proof (flat_map_seqZ_length
                  (λ j, entry_hz data (ddr_freq_addr details_t plan_t j))
                  0 (Z.to_nat bound) (λ j, entry_hz_length data _)) as Hcount.
    rewrite Z2Nat.id in Hcount by lia.
    assert (smem_dram_frequencies_show dram = []) as Hempty.
    { unfold smem_dram_frequencies_show. by rewrite Hnum. }
    rewrite Hempty in Hshow. unfold dram_wf.
    repeat split; (done || lia).
Qed.

Lemma freq_entry_body_hbb (data : list byte) (addr : Z) (dram dram' : smem_dram) :
  freq_entry_body data addr dram = Some dram' → hbb dram' = hbb dram.
Proof.
  unfold freq_entry_body.
  destruct (load_u32 _ _) as [f|]; [|done]. simpl.
  destruct (f =? 0); [by intros [= <-]|].
  destruct (load_u8 _ _) as [e|]; [|done]. simpl.
  destruct (e =? 0); [by intros [= <-]|].
  unfold push_frequency.
  destruct (_ && _); [|done]. by intros [= <-].
Qed.

Lemma for_from_hbb (data : list byte) (addr : Z → Z) (iters : nat) :
  ∀ (i : Z) (dram dram' : smem_dram),
    for_from iters i (λ i dram, freq_entry_body data (addr i) dram) dram
    = Some dram' →
    hbb dram' = hbb dram.
Proof.
  induction iters as [|iters IH]; intros i dram dram'; simpl.
  - by intros [= <-].
  - destruct (freq_entry_body data (addr i) dram) as [dram1|] eqn:Hbody; [|done].
    simpl. intros Hrest. apply IH in Hrest.
    apply freq_entry_body_hbb in Hbody. congruence.
Qed.

(** ** The declared bound of [ddr_freq] *)

Lemma for_from_ext_range {S : Type} (body1 body2 : Z → S → option S)
  (iters : nat) :
  ∀ i s,
    (∀ j s', i ≤ j < i + Z.of_nat iters → body1 j s' = body2 j s') →
    for_from iters i body1 s = for_from iters i body2 s.
Proof.
  induction iters as [|iters IH]; intros i s Hext; [done|].
  cbn [for_from]. rewrite Hext by lia.
  destruct (body2 i s) as [s'|]; [|done].
  cbn [mbind option_bind]. apply IH. intros j s'' Hj. apply Hext. lia.
Qed.

Lemma ddr_freq_entry_inside (details_t plan_t : ctype) (data : list byte)
  (i : Z) (dram : smem_dram) :
  0 ≤ i < array_count plan_t "ddr_freq" →
  ddr_freq_entry details_t plan_t data i dram
  = freq_entry_body data (ddr_freq_addr details_t plan_t i) dram.
Proof.
  intros Hi. unfold ddr_freq_entry.
  destruct (Z.leb_spec 0 i); [|lia].
  destruct (Z.ltb_spec i (array_count plan_t "ddr_freq")); [done|lia].
Qed.

Lemma ddr_freq_entry_outside (details_t plan_t : ctype) (data : list byte)
  (i : Z) (dram : smem_dram) :
  array_count plan_t "ddr_freq" ≤ i →
  ddr_freq_entry details_t plan_t data i dram = None.
Proof.
  intros Hi. unfold ddr_freq_entry.
  destruct (Z.ltb_spec i (array_count plan_t "ddr_freq")); [lia|].
  by rewrite andb_false_r.
Qed.

(** A loop that stays inside the declared array is the plain walk. *)
Lemma for_lt_ddr_freq_entry (details_t plan_t : ctype) (data : list byte)
  (bound : Z) (dram : smem_dram) :
  bound ≤ array_count plan_t "ddr_freq" →
  for_lt bound (λ i dram, ddr_freq_entry details_t plan_t data i dram) dram
  = for_lt bound
      (λ i dram, freq_entry_body data (ddr_freq_addr details_t plan_t i) dram)
      dram.
Proof.
  intros Hbound. unfold for_lt. apply for_from_ext_range.
  intros j s Hj. apply ddr_freq_entry_inside. lia.
Qed.

Lemma for_from_last {S : Type} (body : Z → S → option S) (iters : nat) :
  ∀ i s,
    for_from (Datatypes.S iters) i body s
    = s' ← for_from iters i body s; body (i + Z.of_nat iters) s'.
Proof.
  induction iters as [|iters IH]; intros i s.
  - cbn [for_from mbind option_bind]. rewrite Z.add_0_r.
    by destruct (body i s).
  - change (for_from (Datatypes.S (Datatypes.S iters)) i body s)
      with (s' ← body i s; for_from (Datatypes.S iters) (i + 1) body s').
    change (for_from (Datatypes.S iters) i body s)
      with (s' ← body i s; for_from iters (i + 1) body s').
    destruct (body i s) as [s1|]; [|done]. cbn [mbind option_bind].
    rewrite IH.
    replace (i + 1 + Z.of_nat iters) with (i + Z.of_nat (Datatypes.S iters))
      by lia.
    done.
Qed.

Lemma smem_dram_parse_v3_data_walk (dram : smem_dram) (data : list byte) :
  smem_dram_parse_v3_data dram data false
  = for_lt MAX_DDR_FREQ_NUM_V3
      (λ i dram,
         freq_entry_body data (ddr_freq_addr ddr_details_v3 ddr_freq_plan_v3 i)
           dram)
      dram.
Proof.
  unfold smem_dram_parse_v3_data. cbv zeta. by apply for_lt_ddr_freq_entry.
Qed.

Lemma smem_dram_parse_v4_data_walk (dram : smem_dram) (data : list byte) :
  smem_dram_parse_v4_data dram data
  = (v ← load_u8 data (highest_bank_addr_bit_addr 0 0);
     for_lt MAX_DDR_FREQ_NUM_V3
       (λ i dram,
          freq_entry_body data (ddr_freq_addr ddr_details_v4 ddr_freq_plan_v3 i)
            dram)
       (set_hbb dram v)).
Proof.
  unfold smem_dram_parse_v4_data.
  destruct (load_u8 _ _) as [v|]; [|done]. cbn [mbind option_bind]. cbv zeta.
  by apply for_lt_ddr_freq_entry.
Qed.

Lemma smem_dram_parse_v5_data_walk (dram : smem_dram) (data : list byte) :
  smem_dram_parse_v5_data dram data
  = (v ← load_u32 data (regions_hbb_addr 0);
     for_lt MAX_DDR_FREQ_NUM_V5
       (λ i dram,
          freq_entry_body data (ddr_freq_addr ddr_details_v5 ddr_freq_plan_v5 i)
            dram)
       (set_hbb dram v)).
Proof.
  unfold smem_dram_parse_v5_data.
  destruct (load_u32 _ _) as [v|]; [|done]. cbn [mbind option_bind]. cbv zeta.
  by apply for_lt_ddr_freq_entry.
Qed.

(** With the additional entry the V3 extractor never completes: whatever
    the buffer and the struct, its fourteenth iteration reads [ddr_freq[13]]
    of an array of 13. *)
Lemma smem_dram_parse_v3_data_extra_faults (dram : smem_dram)
  (data : list byte) :
  smem_dram_parse_v3_data dram data true = None.
Proof.
  unfold smem_dram_parse_v3_data, for_lt. cbv zeta.
  change (Z.to_nat (MAX_DDR_FREQ_NUM_V3 + 1)) with (Datatypes.S 13).
  rewrite for_from_last.
  destruct (for_from 13 0 _ dram) as [dram'|]; [|done].
  cbn [mbind option_bind]. by apply ddr_freq_entry_outside.
Qed.

Lemma smem_dram_parse_v3_data_decodes (data : list byte) :
  Z.of_nat (length data) = layout_size INFO_V3 →
  ∃ dram,
    smem_dram_parse_v3_data kzalloc_smem_dram data false = Some dram
    ∧ decodes INFO_V3 data dram.
Proof.
  intros Hsize. rewrite smem_dram_parse_v3_data_walk.
  destruct (for_lt_freq_entries data ddr_details_v3 ddr_freq_plan_v3
              (if CONFIG_PHYS_ADDR_T_64BIT then 72 else 68)
              MAX_DDR_FREQ_NUM_V3 kzalloc_smem_dram)
    as (dram & Hrun & Hhbb & Hwf & Hshow & Hnum).
  - apply ddr_freq_addr_v3.
  - destruct CONFIG_PHYS_ADDR_T_64BIT; lia.
  - done.
  - rewrite Hsize, layout_size_eq by done.
    destruct CONFIG_PHYS_ADDR_T_64BIT; done.
  - done.
  - done.
  - exists dram. split; [done|]. unfold decodes.
    split; [done|]. split; [done|]. split; [done|].
    simpl. by rewrite Hhbb.
Qed.

Lemma smem_dram_parse_v4_data_decodes (data : list byte) :
  Z.of_nat (length data) = layout_size INFO_V4 →
  ∃ dram,
    smem_dram_parse_v4_data kzalloc_smem_dram data = Some dram
    ∧ decodes INFO_V4 data dram.
Proof.
  intros Hsize. rewrite layout_size_eq in Hsize by done.
  rewrite smem_dram_parse_v4_data_walk. unfold decodes, extracted_hbb.
  destruct (load_u8_in_bounds data (highest_bank_addr_bit_addr 0 0))
    as (v & -> & Hv).
  { rewrite highest_bank_addr_bit_addr_eq, Hsize.
    destruct CONFIG_PHYS_ADDR_T_64BIT; done. }
  destruct (for_lt_freq_entries data ddr_details_v4 ddr_freq_plan_v3
              (if CONFIG_PHYS_ADDR_T_64BIT then 72 else 68)
              MAX_DDR_FREQ_NUM_V3 (set_hbb kzalloc_smem_dram v))
    as (dram & Hrun & Hhbb & Hwf & Hshow & Hnum).
  - apply ddr_freq_addr_v4.
  - destruct CONFIG_PHYS_ADDR_T_64BIT; lia.
  - done.
  - rewrite Hsize. destruct CONFIG_PHYS_ADDR_T_64BIT; done.
  - done.
  - done.
  - exists dram. cbn [mbind option_bind]. split; [done|].
    split; [done|]. split; [done|]. split; [done|].
    simpl. by rewrite Hhbb.
Qed.

Lemma smem_dram_parse_v5_data_decodes (data : list byte) (ver : Z) :
  ver = INFO_V5 ∨ ver = INFO_V5_WITH_6_REGIONS →
  Z.of_nat (length data) = layout_size ver →
  ∃ dram,
    smem_dram_parse_v5_data kzalloc_smem_dram data = Some dram
    ∧ decodes ver data dram.
Proof.
  intros Hver Hsize.
  rewrite layout_size_eq in Hsize by (unfold known_version; destruct Hver; by subst).
  rewrite smem_dram_parse_v5_data_walk. unfold decodes, extracted_hbb.
  destruct (load_u32_in_bounds data (regions_hbb_addr 0)) as (v & -> & Hv).
  { rewrite regions_hbb_addr_eq. destruct CONFIG_PHYS_ADDR_T_64BIT; done. }
  { rewrite regions_hbb_addr_eq, Hsize.
    destruct Hver; subst ver; destruct CONFIG_PHYS_ADDR_T_64BIT; done. }
  destruct (for_lt_freq_entries data ddr_details_v5 ddr_freq_plan_v5
              (if CONFIG_PHYS_ADDR_T_64BIT then 72 else 68)
              MAX_DDR_FREQ_NUM_V5 (set_hbb kzalloc_smem_dram v))
    as (dram & Hrun & Hhbb & Hwf & Hshow & Hnum).
  - apply ddr_freq_addr_v5.
  - destruct CONFIG_PHYS_ADDR_T_64BIT; lia.
  - done.
  - rewrite Hsize.
    destruct Hver; subst ver; destruct CONFIG_PHYS_ADDR_T_64BIT; done.
  - done.
  - done.
  - exists dram. cbn [mbind option_bind]. split; [done|].
    destruct Hver; subst ver;
      (split; [done|]; split; [done|]; split; [done|]; simpl; by rewrite Hhbb).
Qed.

(** ** The entry point *)

Lemma infer_range (size : Z) :
  smem_dram_infer_struct_version size = - EINVAL
  ∨ smem_dram_infer_struct_version size = INFO_UNKNOWN
  ∨ known_version (smem_dram_infer_struct_version size).
Proof.
  unfold smem_dram_infer_struct_version, known_version.
  repeat match goal with
         | |- context [if ?c then _ else _] => destruct c
         end; auto; right; right; done.
Qed.

Lemma to_ddr_info_version_known (ver : Z) :
  known_version ver → to_ddr_info_version ver = ver.
Proof.
  unfold known_version, to_ddr_info_version, to_u32, INFO_V3,
    INFO_V5_WITH_6_REGIONS.
  intros Hver. destruct ENUM_IS_UNSIGNED; [|done].
  apply Z.mod_small. lia.
Qed.

(** A buffer classified as one of the layouts whose walk stays inside the
    declared array is decoded completely, without a fault, and published. *)
Lemma smem_dram_parse_known (__dram : option smem_dram) (data : list byte)
  (debugfs_dir : dentry) :
  decodable_version (smem_dram_infer_struct_version (Z.of_nat (length data))) →
  ∃ dram,
    smem_dram_parse __dram (Some data) true debugfs_dir
      = Some (debugfs_dir, Some dram)
    ∧ decodes (smem_dram_infer_struct_version (Z.of_nat (length data))) data dram.
Proof using EINVAL_range.
  intros [Hknown Hnot14]. pose proof (infer_known_size _ Hknown) as Hsize.
  unfold smem_dram_parse. cbv zeta.
  rewrite (to_ddr_info_version_known _ Hknown).
  revert Hknown Hnot14 Hsize.
  generalize (smem_dram_infer_struct_version (Z.of_nat (length data))).
  intros ver Hknown Hnot14 Hsize. unfold known_version in Hknown.
  unfold INFO_UNKNOWN, INFO_V3, INFO_V3_WITH_14_FREQS, INFO_V4, INFO_V5,
    INFO_V5_WITH_6_REGIONS in Hknown, Hnot14 |- *.
  assert (ver = 1 ∨ ver = 3 ∨ ver = 4 ∨ ver = 5)
    as [->|[->|[->| ->]]] by lia; cbn [Z.ltb Z.eqb Z.compare Pos.compare
      Pos.compare_cont Pos.eqb negb orb].
  - destruct (smem_dram_parse_v3_data_decodes data Hsize) as (dram & -> & ?).
    by exists dram.
  - destruct (smem_dram_parse_v4_data_decodes data Hsize) as (dram & -> & ?).
    by exists dram.
  - destruct (smem_dram_parse_v5_data_decodes data INFO_V5 (or_introl eq_refl) Hsize)
      as (dram & -> & ?).
    by exists dram.
  - destruct (smem_dram_parse_v5_data_decodes data INFO_V5_WITH_6_REGIONS
                (or_intror eq_refl) Hsize) as (dram & -> & ?).
    by exists dram.
Qed.

(** An item of the size of [INFO_V3_WITH_14_FREQS] whose struct is
    allocated makes the call read [ddr_freq[13]] out of its array. *)
Lemma smem_dram_parse_v3_14_faults (__dram : option smem_dram)
  (data : list byte) (debugfs_dir : dentry) :
  smem_dram_infer_struct_version (Z.of_nat (length data))
  = INFO_V3_WITH_14_FREQS →
  smem_dram_parse __dram (Some data) true debugfs_dir = None.
Proof.
  intros Hver. unfold smem_dram_parse. cbv zeta. rewrite Hver.
  rewrite to_ddr_info_version_known by done.
  cbn [INFO_V3_WITH_14_FREQS INFO_UNKNOWN INFO_V3 Z.ltb Z.eqb Z.compare
         Pos.compare Pos.compare_cont Pos.eqb negb orb].
  by rewrite smem_dram_parse_v3_data_extra_faults.
Qed.

(** Every other call returns an error pointer and leaves [__dram] as it
    was. *)
Lemma smem_dram_parse_error (__dram : option smem_dram)
  (smem_item : option (list byte)) (kzalloc_ok : bool) (debugfs_dir : dentry) :
  (∀ data, smem_item = Some data → kzalloc_ok = true →
           ¬ known_version (smem_dram_infer_struct_version (Z.of_nat (length data)))) →
  ∃ err,
    smem_dram_parse __dram smem_item kzalloc_ok debugfs_dir
    = Some (ERR_PTR err, __dram).
Proof using EINVAL_range.
  intros Hbad. unfold smem_dram_parse.
  destruct smem_item as [data|]; [|by eexists]. cbv zeta.
  specialize (Hbad data eq_refl).
  destruct (infer_range (Z.of_nat (length data))) as [Hv|[Hv|Hv]].
  - rewrite Hv. unfold to_ddr_info_version, to_u32, MAX_ERRNO in *.
    destruct ENUM_IS_UNSIGNED.
    + assert (- EINVAL mod 2 ^ 32 = 2 ^ 32 - EINVAL) as ->.
      { symmetry. apply (Z.mod_unique _ _ (-1)); lia. }
      unfold INFO_UNKNOWN, INFO_V3, INFO_V3_WITH_14_FREQS, INFO_V4, INFO_V5,
        INFO_V5_WITH_6_REGIONS.
      destruct (Z.ltb_spec (2 ^ 32 - EINVAL) 0); [lia|].
      destruct (Z.eqb_spec (2 ^ 32 - EINVAL) 0); [lia|].
      destruct kzalloc_ok; [|by eexists]. simpl negb. cbv iota.
      destruct (Z.eqb_spec (2 ^ 32 - EINVAL) 1); [lia|].
      destruct (Z.eqb_spec (2 ^ 32 - EINVAL) 2); [lia|].
      destruct (Z.eqb_spec (2 ^ 32 - EINVAL) 3); [lia|].
      destruct (Z.eqb_spec (2 ^ 32 - EINVAL) 4); [lia|].
      destruct (Z.eqb_spec (2 ^ 32 - EINVAL) 5); [lia|].
      by eexists.
    + destruct (Z.ltb_spec (- EINVAL) 0); [by eexists|lia].
  - rewrite Hv. unfold to_ddr_info_version, to_u32, INFO_UNKNOWN.
    destruct ENUM_IS_UNSIGNED; by eexists.
  - destruct kzalloc_ok; [by destruct Hbad|].
    rewrite (to_ddr_info_version_known _ Hv).
    unfold known_version, INFO_V3 in Hv.
    destruct (Z.ltb_spec (smem_dram_infer_struct_version (Z.of_nat (length data))) 0);
      [lia|].
    destruct (_ =? INFO_UNKNOWN); by eexists.
Qed.

Lemma extracted_hbb_v4 (data : list byte) :
  extracted_hbb INFO_V4 data
  = to_u8 <$> load_u8 data (highest_bank_addr_bit_addr 0 0).
Proof. reflexivity. Qed.

Lemma extracted_hbb_v5 (ver : Z) (data : list byte) :
  ver = INFO_V5 ∨ ver = INFO_V5_WITH_6_REGIONS →
  extracted_hbb ver data = to_u8 <$> load_u32 data (regions_hbb_addr 0).
Proof. by intros [-> | ->]. Qed.

Lemma load_u8_range (data : list byte) (off v : Z) :
  load_u8 data off = Some v → 0 ≤ v < 256.
Proof.
  unfold load_u8. destruct (_ <? 0); [done|].
  destruct (data !! _) as [b|]; [|done].
  intros [= <-]. apply byte_val_range.
Qed.

Lemma walked_entries_v4 :
  walked_entries INFO_V4
  = ddr_freq_addr ddr_details_v4 ddr_freq_plan_v3 <$> seqZ 0 MAX_DDR_FREQ_NUM_V3.
Proof. reflexivity. Qed.

Lemma flat_map_middle (F : Z → list Z) (l : list Z) (i : nat) (a : Z) :
  l !! i = Some a →
  flat_map F l = flat_map F (take i l) ++ F a ++ flat_map F (drop (S i) l).
Proof.
  intros Hi. rewrite <- (take_drop_middle l i a Hi) at 1.
  rewrite flat_map_app. reflexivity.
Qed.

Lemma entry_hz_valid (data : list byte) (addr freq_khz enabled : Z) :
  load_u32 data (addr + offsetof ddr_freq_table "freq_khz") = Some freq_khz →
  load_u8 data (addr + offsetof ddr_freq_table "enabled") = Some enabled →
  freq_khz ≠ 0 → enabled ≠ 0 →
  entry_hz data addr = [to_u32 (1000 * freq_khz)].
Proof.
  intros Hf He Hf0 He0. unfold entry_hz. rewrite Hf, He.
  destruct (Z.eqb_spec freq_khz 0); [done|].
  destruct (Z.eqb_spec enabled 0); done.
Qed.

Lemma entry_hz_zero_freq (data : list byte) (addr : Z) :
  load_u32 data (addr + offsetof ddr_freq_table "freq_khz") = Some 0 →
  entry_hz data addr = [].
Proof.
  intros Hf. unfold entry_hz. rewrite Hf. by destruct (load_u8 _ _).
Qed.

Lemma entry_hz_disabled (data : list byte) (addr : Z) :
  load_u8 data (addr + offsetof ddr_freq_table "enabled") = Some 0 →
  entry_hz data addr = [].
Proof.
  intros He. unfold entry_hz. rewrite He.
  destruct (load_u32 _ _) as [f|]; [|done].
  by rewrite orb_true_r.
Qed.

(** Two entries that each contribute [x] put [x] at two positions. *)
Lemma flat_map_twice (F : Z → list Z) (l : list Z) (i j : nat) (a b x : Z) :
  (i < j)%nat → l !! i = Some a → l !! j = Some b →
  F a = [x] → F b = [x] →
  ∃ p q, (p < q)%nat ∧ flat_map F l !! p = Some x ∧ flat_map F l !! q = Some x.
Proof.
  intros Hij Hi Hj Ha Hb.
  assert (drop (S i) l !! (j - S i)%nat = Some b) as Hj'.
  { rewrite lookup_drop. rewrite <- Hj. f_equal. lia. }
  rewrite (flat_map_middle F l i a Hi), Ha.
  rewrite (flat_map_middle F (drop (S i) l) _ b Hj'), Hb.
  generalize (flat_map F (take i l)),
    (flat_map F (take (j - S i) (drop (S i) l))),
    (flat_map F (drop (S (j - S i)) (drop (S i) l))).
  intros l1 l2 l3.
  exists (length l1), (length l1 + 1 + length l2)%nat.
  split; [lia|]. split.
  - by apply list_lookup_middle.
  - rewrite lookup_app_r by lia.
    replace (length l1 + 1 + length l2 - length l1)%nat
      with (S (length l2)) by lia.
    change ((l2 ++ x :: l3) !! length l2 = Some x).
    by apply list_lookup_middle.
Qed.

Lemma extracted_hbb_range (ver : Z) (data : list byte) (v : Z) :
  extracted_hbb ver data = Some v → 0 ≤ v < 256.
Proof.
  unfold extracted_hbb, to_u8.
  destruct (ver =? INFO_V3); [intros [= <-]; lia|].
  destruct (ver =? INFO_V4).
  { destruct (load_u8 _ _) as [b|]; [|done].
    intros [= <-]. apply Z.mod_pos_bound. lia. }
  destruct (_ || _); [|done].
  destruct (load_u32 _ _) as [raw|]; [|done].
  intros [= <-]. apply Z.mod_pos_bound. lia.
Qed.

(** ** Histories *)

Lemma call_succeeds_known (smem_item : option (list byte)) (kzalloc_ok : bool)
  (debugfs_dir : dentry) :
  call_succeeds (smem_item, kzalloc_ok, debugfs_dir) = true
  ↔ ∃ data, smem_item = Some data ∧ kzalloc_ok = true
            ∧ known_version
                (smem_dram_infer_struct_version (Z.of_nat (length data))).
Proof.
  unfold call_succeeds, known_version. split.
  - destruct smem_item as [data|]; [|done].
    rewrite !andb_true_iff, !Z.leb_le. intros [[-> ?] ?]. by exists data.
  - intros (data & -> & -> & Hlo & Hhi).
    rewrite !andb_true_iff, !Z.leb_le. done.
Qed.

Lemma call_decodable (smem_item : option (list byte)) (kzalloc_ok : bool)
  (debugfs_dir : dentry) :
  call_succeeds (smem_item, kzalloc_ok, debugfs_dir) = true →
  call_reads_past_ddr_freq (smem_item, kzalloc_ok, debugfs_dir) = false →
  ∃ data, smem_item = Some data ∧ kzalloc_ok = true
          ∧ decodable_version
              (smem_dram_infer_struct_version (Z.of_nat (length data))).
Proof.
  intros (data & -> & -> & Hknown)%call_succeeds_known Hsafe.
  exists data. split; [done|]. split; [done|]. split; [done|].
  unfold call_reads_past_ddr_freq in Hsafe. cbn [andb] in Hsafe.
  by apply Z.eqb_neq.
Qed.

(** Along any run in which no call reads [ddr_freq[13]] out of its array,
    each call returns as [returned] says, and [__dram] holds the complete
    decoding of the item of the most recent successful call, from whatever
    state the run starts in. *)
Lemma parse_history_publishes (calls : list call) :
  ∀ (__dram : option smem_dram) (earlier : option (list byte)),
    Forall (λ c, call_reads_past_ddr_freq c = false) calls →
    publishes earlier __dram →
    ∃ rets final,
      parse_history calls __dram = Some (rets, final)
      ∧ Forall2 returned calls rets
      ∧ publishes (most_recent_parsed calls earlier) final.
Proof using EINVAL_range.
  induction calls as [|[[smem_item kzalloc_ok] debugfs_dir] calls IH];
    intros __dram earlier Hsafe Hpub.
  - exists [], __dram. simpl. split; [done|]. split; [constructor|done].
  - apply Forall_cons in Hsafe as [Hc Hsafe].
    cbn [parse_history most_recent_parsed].
    destruct (call_succeeds (smem_item, kzalloc_ok, debugfs_dir)) eqn:Hcall.
    + pose proof Hcall as Hsucc.
      destruct (call_decodable _ _ _ Hcall Hc) as (data & -> & -> & Hdecodable).
      destruct (smem_dram_parse_known __dram data debugfs_dir Hdecodable)
        as (dram & -> & Hdec).
      cbn [mbind option_bind fst snd].
      destruct (IH (Some dram) (Some data) Hsafe)
        as (rets & final & -> & Hrets & Hfin).
      { exists dram. done. }
      exists (debugfs_dir :: rets), final. cbn [mbind option_bind fst snd].
      split; [done|]. split; [|done].
      constructor; [|done]. unfold returned. by rewrite Hsucc.
    + destruct (smem_dram_parse_error __dram smem_item kzalloc_ok debugfs_dir)
        as (err & ->).
      { intros data -> -> Hknown.
        assert (call_succeeds (Some data, true, debugfs_dir) = true) as Hyes
          by (apply call_succeeds_known; by exists data).
        congruence. }
      cbn [mbind option_bind fst snd].
      destruct (IH __dram earlier Hsafe Hpub)
        as (rets & final & -> & Hrets & Hfin).
      exists (ERR_PTR err :: rets), final. cbn [mbind option_bind fst snd].
      split; [done|]. split; [|done].
      constructor; [|done]. unfold returned. rewrite Hcall. by exists err.
Qed.

Lemma most_recent_parsed_is_Some (calls : list call) :
  ∀ earlier,
    is_Some (most_recent_parsed calls earlier)
    ↔ is_Some earlier ∨ Exists (λ c, call_succeeds c = true) calls.
Proof.
  induction calls as [|c calls IH]; intros earlier; cbn [most_recent_parsed].
  - rewrite Exists_nil. tauto.
  - rewrite IH, Exists_cons.
    destruct (call_succeeds c) eqn:Hcall.
    + destruct c as [[smem_item kzalloc_ok] debugfs_dir].
      apply call_succeeds_known in Hcall as (data & -> & _).
      cbn [fst]. split; [tauto|]. intros _. left. by eexists.
    + split; [tauto|]. intros [?|[?|?]]; [tauto|done|tauto].
Qed.

(** * The claims *)

(** C5.  [smem_dram_infer_struct_version] is a complete case analysis on
    exact sizes: below [sizeof(struct ddr_details_v3)] it answers [-EINVAL]
    (too small); at each of the five sizes it compares against it answers
    the identifier of that size; these sizes are pairwise distinct; at every
    other size it answers [INFO_UNKNOWN]; and the too-small answer is none of
    the six enumerators. *)
Theorem C5_infer_exact_sizes :
  (∀ size, size < sizeof ddr_details_v3 →
           smem_dram_infer_struct_version size = - EINVAL)
  ∧ (∀ ver, known_version ver →
            smem_dram_infer_struct_version (layout_size ver) = ver)
  ∧ (∀ ver ver', known_version ver → known_version ver' →
                 layout_size ver = layout_size ver' → ver = ver')
  ∧ (∀ size, sizeof ddr_details_v3 ≤ size →
             (∀ ver, known_version ver → size ≠ layout_size ver) →
             smem_dram_infer_struct_version size = INFO_UNKNOWN)
  ∧ (∀ ver, ver = INFO_UNKNOWN ∨ known_version ver → - EINVAL ≠ ver).
Proof using EINVAL_range.
  split; [|split; [|split; [|split]]].
  - intros size Hsmall. unfold smem_dram_infer_struct_version.
    destruct (Z.ltb_spec size (sizeof ddr_details_v3)); [done|lia].
  - apply infer_layout_size.
  - intros ver ver' Hver Hver' Heq.
    rewrite <- (infer_layout_size ver Hver), <- (infer_layout_size ver' Hver').
    by rewrite Heq.
  - intros size Hbig Hother.
    destruct (infer_range size) as [Hv|[Hv|Hv]]; [|done|].
    + exfalso. unfold smem_dram_infer_struct_version in Hv.
      destruct (Z.ltb_spec size (sizeof ddr_details_v3)); [lia|].
      unfold INFO_UNKNOWN, INFO_V3, INFO_V3_WITH_14_FREQS, INFO_V4, INFO_V5,
        INFO_V5_WITH_6_REGIONS in Hv.
      repeat match type of Hv with
             | (if ?c then _ else _) = _ => destruct c
             end; lia.
    + exfalso. apply (Hother _ Hv). by apply infer_known_size.
  - unfold known_version, INFO_UNKNOWN, INFO_V3, INFO_V5_WITH_6_REGIONS.
    intros ver Hver. lia.
Qed.

(** C8.  What the code does for the two V3 identifiers.  The V3 extractor
    never touches [hbb]: whatever the buffer and the struct it is given, a
    completed run leaves [hbb] as it was.  A buffer classified [INFO_V3] is
    decoded and published with the [hbb] = 0 of the zeroed allocation.  A
    buffer classified [INFO_V3_WITH_14_FREQS] is not: once the struct is
    allocated the fourteenth iteration of the loop reads [ddr_freq[13]] of
    the 13 elements of [struct ddr_freq_plan_v3], and the call has no
    defined result. *)
Theorem C8_v3_hbb_and_extra_entry_fault (__dram : option smem_dram)
  (data : list byte) (debugfs_dir : dentry) :
  (∀ dram0 blob extra dram1,
     smem_dram_parse_v3_data dram0 blob extra = Some dram1 →
     hbb dram1 = hbb dram0)
  ∧ (smem_dram_infer_struct_version (Z.of_nat (length data)) = INFO_V3 →
     ∃ dram,
       smem_dram_parse __dram (Some data) true debugfs_dir
       = Some (debugfs_dir, Some dram)
       ∧ hbb dram = 0)
  ∧ (smem_dram_infer_struct_version (Z.of_nat (length data))
     = INFO_V3_WITH_14_FREQS →
     smem_dram_parse __dram (Some data) true debugfs_dir = None).
Proof using EINVAL_range.
  split; [|split].
  - intros dram0 blob [|] dram1.
    + by rewrite smem_dram_parse_v3_data_extra_faults.
    + rewrite smem_dram_parse_v3_data_walk. unfold for_lt. apply for_from_hbb.
  - intros Hver.
    destruct (smem_dram_parse_known __dram data debugfs_dir)
      as (dram & Hparse & Hdec).
    { rewrite Hver. by split. }
    exists dram. split; [done|].
    destruct Hdec as (_ & _ & _ & Hhbb).
    rewrite Hver in Hhbb. by injection Hhbb.
  - apply smem_dram_parse_v3_14_faults.
Qed.

(** C7.  For a buffer classified [INFO_V4] the published [hbb] is the byte
    at [highest_bank_addr_bit[0][0]]; no other byte of the buffer enters
    it. *)
Theorem C7_v4_hbb_channel0_rank0 (__dram : option smem_dram) (data : list byte)
  (debugfs_dir : dentry) :
  smem_dram_infer_struct_version (Z.of_nat (length data)) = INFO_V4 →
  ∃ v dram,
    load_u8 data (highest_bank_addr_bit_addr 0 0) = Some v
    ∧ smem_dram_parse __dram (Some data) true debugfs_dir
      = Some (debugfs_dir, Some dram)
    ∧ hbb dram = v.
Proof using EINVAL_range.
  intros Hver.
  destruct (smem_dram_parse_known __dram data debugfs_dir) as (dram & Hparse & Hdec).
  { rewrite Hver. by split. }
  destruct Hdec as (_ & _ & _ & Hhbb).
  rewrite Hver, extracted_hbb_v4 in Hhbb.
  destruct (load_u8 data (highest_bank_addr_bit_addr 0 0)) as [v|] eqn:Hload;
    [|done].
  exists v, dram. split; [done|]. split; [done|].
  injection Hhbb as ->. apply load_u8_range in Hload.
  unfold to_u8. apply Z.mod_small. lia.
Qed.

(** C10.  For a buffer classified [INFO_V5] or [INFO_V5_WITH_6_REGIONS] the
    [highest_bank_addr_bit] read is a 32-bit field, and the published [hbb]
    is that field modulo 256. *)
Theorem C10_v5_hbb_low_byte (__dram : option smem_dram) (data : list byte)
  (debugfs_dir : dentry) :
  smem_dram_infer_struct_version (Z.of_nat (length data)) = INFO_V5
  ∨ smem_dram_infer_struct_version (Z.of_nat (length data))
    = INFO_V5_WITH_6_REGIONS →
  ∃ raw dram,
    load_u32 data (regions_hbb_addr 0) = Some raw
    ∧ 0 ≤ raw < 2 ^ 32
    ∧ smem_dram_parse __dram (Some data) true debugfs_dir
      = Some (debugfs_dir, Some dram)
    ∧ hbb dram = raw mod 256.
Proof using EINVAL_range.
  intros Hver.
  destruct (smem_dram_parse_known __dram data debugfs_dir) as (dram & Hparse & Hdec).
  { destruct Hver as [-> | ->]; by split. }
  pose proof (infer_known_size (Z.of_nat (length data))) as Hsize.
  destruct Hdec as (_ & _ & _ & Hhbb).
  destruct (load_u32_in_bounds data (regions_hbb_addr 0)) as (raw & Hload & Hraw).
  { rewrite regions_hbb_addr_eq. destruct CONFIG_PHYS_ADDR_T_64BIT; done. }
  { rewrite Hsize, layout_size_eq, regions_hbb_addr_eq
      by (destruct Hver as [-> | ->]; done).
    destruct Hver as [-> | ->]; destruct CONFIG_PHYS_ADDR_T_64BIT; done. }
  exists raw, dram. split; [done|]. split; [done|]. split; [done|].
  rewrite (extracted_hbb_v5 _ data Hver), Hload in Hhbb.
  by injection Hhbb.
Qed.

(** C4, as the code has it.  For a buffer classified [INFO_V5] or
    [INFO_V5_WITH_6_REGIONS] the published [hbb] is read from the field
    [highest_bank_addr_bit] of the regions header [struct ddr_regions_v5]:
    at one address for both region counts, given by the two field offsets
    alone, and wholly before the first record of the trailing array. *)
Theorem C4_v5_hbb_from_regions_header (__dram : option smem_dram)
  (data : list byte) (debugfs_dir : dentry) :
  smem_dram_infer_struct_version (Z.of_nat (length data)) = INFO_V5
  ∨ smem_dram_infer_struct_version (Z.of_nat (length data))
    = INFO_V5_WITH_6_REGIONS →
  regions_hbb_addr 0
  = offsetof ddr_details_v5 "ddr_regions"
    + offsetof ddr_regions_v5 "highest_bank_addr_bit"
  ∧ regions_hbb_addr 0 + sizeof u32 ≤ ddr_region_addr 0
  ∧ ∃ raw dram,
      load_u32 data (regions_hbb_addr 0) = Some raw
      ∧ smem_dram_parse __dram (Some data) true debugfs_dir
      = Some (debugfs_dir, Some dram)
      ∧ hbb dram = to_u8 raw.
Proof using EINVAL_range.
  intros Hver. split; [|split].
  - unfold regions_hbb_addr. cbv zeta. lia.
  - rewrite regions_hbb_addr_eq, ddr_region_addr_eq.
    destruct CONFIG_PHYS_ADDR_T_64BIT; done.
  - destruct (smem_dram_parse_known __dram data debugfs_dir) as (dram & Hparse & Hdec).
    { destruct Hver as [-> | ->]; by split. }
    destruct Hdec as (_ & _ & _ & Hhbb).
    rewrite (extracted_hbb_v5 _ data Hver) in Hhbb.
    destruct (load_u32 data (regions_hbb_addr 0)) as [raw|]; [|done].
    exists raw, dram. split; [done|]. split; [done|]. by injection Hhbb.
Qed.

(** C1, as the code has it.  For a buffer classified [INFO_V4] the entry
    point walks the [MAX_DDR_FREQ_NUM_V3] = 13 entries of the table of
    [struct ddr_freq_plan_v3]: the published list is what the entries 0..12
    contribute, in order, so it has at most 13 values, and an entry at
    index 12 with non-zero frequency and enabled flag comes last in it. *)
Theorem C1_v4_walks_13_entries (__dram : option smem_dram) (data : list byte)
  (debugfs_dir : dentry) :
  smem_dram_infer_struct_version (Z.of_nat (length data)) = INFO_V4 →
  ∃ dram,
    smem_dram_parse __dram (Some data) true debugfs_dir
      = Some (debugfs_dir, Some dram)
    ∧ smem_dram_frequencies_show dram
      = flat_map (entry_hz data)
          (ddr_freq_addr ddr_details_v4 ddr_freq_plan_v3
             <$> seqZ 0 MAX_DDR_FREQ_NUM_V3)
    ∧ (length (smem_dram_frequencies_show dram) ≤ 13)%nat
    ∧ ∀ freq_khz enabled,
        load_u32 data (ddr_freq_addr ddr_details_v4 ddr_freq_plan_v3 12
                       + offsetof ddr_freq_table "freq_khz") = Some freq_khz →
        load_u8 data (ddr_freq_addr ddr_details_v4 ddr_freq_plan_v3 12
                      + offsetof ddr_freq_table "enabled") = Some enabled →
        freq_khz ≠ 0 → enabled ≠ 0 →
        last (smem_dram_frequencies_show dram) = Some (to_u32 (1000 * freq_khz)).
Proof using EINVAL_range.
  intros Hver.
  destruct (smem_dram_parse_known __dram data debugfs_dir) as (dram & Hparse & Hdec).
  { rewrite Hver. by split. }
  destruct Hdec as (_ & Hshow & _ & _).
  rewrite Hver, walked_entries_v4 in Hshow.
  exists dram. split; [done|]. split; [done|]. rewrite Hshow. split.
  - rewrite flat_map_fmap.
    apply (flat_map_seqZ_length _ 0 13). intros j. apply entry_hz_length.
  - intros freq_khz enabled Hf He Hf0 He0.
    change MAX_DDR_FREQ_NUM_V3 with (Z.of_nat 13).
    rewrite seqZ_S, fmap_app, flat_map_app. cbn [fmap list_fmap flat_map].
    change (0 + Z.of_nat 12) with 12.
    rewrite (entry_hz_valid data _ freq_khz enabled Hf He Hf0 He0).
    cbn [app]. apply last_snoc.
Qed.

(** C2, as the code has it.  For every buffer classified as a layout whose
    walk stays inside the declared table ([INFO_V3], [INFO_V4], [INFO_V5],
    [INFO_V5_WITH_6_REGIONS]) the published list holds, in table order,
    what each walked entry contributes, with nothing removed afterwards:
    two non-zero enabled entries that carry the same frequency put its
    value at two positions of the list. *)
Theorem C2_equal_entries_both_listed (__dram : option smem_dram)
  (data : list byte) (debugfs_dir : dentry) :
  decodable_version
    (smem_dram_infer_struct_version (Z.of_nat (length data))) →
  ∃ dram,
    smem_dram_parse __dram (Some data) true debugfs_dir
      = Some (debugfs_dir, Some dram)
    ∧ smem_dram_frequencies_show dram
      = flat_map (entry_hz data)
          (walked_entries
             (smem_dram_infer_struct_version (Z.of_nat (length data))))
    ∧ ∀ (i j : nat) (a b freq_khz ena enb : Z),
        (i < j)%nat →
        walked_entries (smem_dram_infer_struct_version (Z.of_nat (length data)))
          !! i = Some a →
        walked_entries (smem_dram_infer_struct_version (Z.of_nat (length data)))
          !! j = Some b →
        load_u32 data (a + offsetof ddr_freq_table "freq_khz") = Some freq_khz →
        load_u32 data (b + offsetof ddr_freq_table "freq_khz") = Some freq_khz →
        load_u8 data (a + offsetof ddr_freq_table "enabled") = Some ena →
        load_u8 data (b + offsetof ddr_freq_table "enabled") = Some enb →
        freq_khz ≠ 0 → ena ≠ 0 → enb ≠ 0 →
        ∃ p q, (p < q)%nat
               ∧ smem_dram_frequencies_show dram !! p
                 = Some (to_u32 (1000 * freq_khz))
               ∧ smem_dram_frequencies_show dram !! q
                 = Some (to_u32 (1000 * freq_khz)).
Proof using EINVAL_range.
  intros Hknown.
  destruct (smem_dram_parse_known __dram data debugfs_dir Hknown) as (dram & Hparse & Hdec).
  destruct Hdec as (_ & Hshow & _ & _).
  exists dram. split; [done|]. split; [done|].
  intros i j a b freq_khz ena enb Hij Hi Hj Hfa Hfb Hea Heb Hf0 Hea0 Heb0.
  rewrite Hshow.
  apply (flat_map_twice _ _ i j a b); [done|done|done| |].
  - by apply (entry_hz_valid data a freq_khz ena).
  - by apply (entry_hz_valid data b freq_khz enb).
Qed.

(** C6.  For every buffer the code decodes, that is every buffer
    classified as a layout whose walk stays inside the declared table
    ([INFO_V3], [INFO_V4], [INFO_V5], [INFO_V5_WITH_6_REGIONS]), and every
    walked table entry: the published list is what the entries before it
    contribute, then what this entry contributes, then what the entries
    after it contribute; an entry with [freq_khz] = 0 contributes nothing,
    an entry with [enabled] = 0 contributes nothing, and an entry with
    [freq_khz] = 1600000 and [enabled] = 1 contributes 1600000000. *)
Theorem C6_filter_and_convert (__dram : option smem_dram) (data : list byte)
  (debugfs_dir : dentry) :
  decodable_version
    (smem_dram_infer_struct_version (Z.of_nat (length data))) →
  ∃ dram,
    smem_dram_parse __dram (Some data) true debugfs_dir
      = Some (debugfs_dir, Some dram)
    ∧ ∀ (i : nat) (addr : Z),
        walked_entries (smem_dram_infer_struct_version (Z.of_nat (length data)))
          !! i = Some addr →
        let before :=
          flat_map (entry_hz data)
            (take i (walked_entries
                       (smem_dram_infer_struct_version (Z.of_nat (length data)))))
        in
        let after :=
          flat_map (entry_hz data)
            (drop (S i) (walked_entries
                           (smem_dram_infer_struct_version
                              (Z.of_nat (length data)))))
        in
        (load_u32 data (addr + offsetof ddr_freq_table "freq_khz") = Some 0 →
         smem_dram_frequencies_show dram = before ++ after)
        ∧ (load_u8 data (addr + offsetof ddr_freq_table "enabled") = Some 0 →
           smem_dram_frequencies_show dram = before ++ after)
        ∧ (load_u32 data (addr + offsetof ddr_freq_table "freq_khz")
           = Some 1600000 →
           load_u8 data (addr + offsetof ddr_freq_table "enabled") = Some 1 →
           smem_dram_frequencies_show dram = before ++ 1600000000 :: after).
Proof using EINVAL_range.
  intros Hknown.
  destruct (smem_dram_parse_known __dram data debugfs_dir Hknown) as (dram & Hparse & Hdec).
  destruct Hdec as (_ & Hshow & _ & _).
  exists dram. split; [done|].
  intros i addr Hi before after.
  rewrite Hshow, (flat_map_middle _ _ i addr Hi).
  fold before. fold after. split; [|split].
  - intros Hf. by rewrite (entry_hz_zero_freq data addr Hf).
  - intros He. by rewrite (entry_hz_disabled data addr He).
  - intros Hf He.
    by rewrite (entry_hz_valid data addr 1600000 1 Hf He).
Qed.

(** C9.  Take any run of calls to [smem_dram_parse] from the initial NULL
    [__dram] in which no call reads [ddr_freq[13]] out of its array (no
    item of the size of [INFO_V3_WITH_14_FREQS] reaches its extractor).  No
    call faults and each call returns what [debugfs_create_dir] gave it
    when it succeeds and an error pointer otherwise; [__dram] is NULL when
    no call has succeeded, and otherwise holds the complete decoding of the
    item of the most recent call that did.  [qcom_smem_dram_get_hbb] then
    answers [-ENODATA], a negative number, in the first case and that
    decoding's [hbb], a number from 0 to 255, in the second. *)
Theorem C9_get_hbb_most_recent (calls : list call) :
  Forall (λ c, call_reads_past_ddr_freq c = false) calls →
  ∃ rets final,
    parse_history calls None = Some (rets, final)
    ∧ Forall2 returned calls rets
    ∧ publishes (most_recent_parsed calls None) final
    ∧ (is_Some (most_recent_parsed calls None)
       ↔ Exists (λ c, call_succeeds c = true) calls)
    ∧ match most_recent_parsed calls None with
      | Some data =>
          Some (qcom_smem_dram_get_hbb final)
          = extracted_hbb
              (smem_dram_infer_struct_version (Z.of_nat (length data))) data
          ∧ 0 ≤ qcom_smem_dram_get_hbb final ≤ 255
      | None =>
          qcom_smem_dram_get_hbb final = - ENODATA
          ∧ qcom_smem_dram_get_hbb final < 0
      end.
Proof using EINVAL_range ENODATA_range.
  intros Hsafe.
  destruct (parse_history_publishes calls None None Hsafe eq_refl)
    as (rets & final & Hrun & Hrets & Hpub).
  exists rets, final. split; [done|]. split; [done|]. split; [done|]. split.
  - rewrite most_recent_parsed_is_Some. split; [|tauto].
    intros [[? [=]]|?]; done.
  - unfold publishes in Hpub.
    destruct (most_recent_parsed calls None) as [data|].
    + destruct Hpub as (dram & -> & _ & _ & _ & _ & Hhbb).
      cbn [qcom_smem_dram_get_hbb]. split; [done|].
      symmetry in Hhbb. apply extracted_hbb_range in Hhbb. lia.
    + subst final. cbn [qcom_smem_dram_get_hbb]. split; [done|]. lia.
Qed.

(** * Further properties of the driver *)

(** ** Error returns of the entry point *)

Lemma to_ddr_info_version_too_small :
  to_ddr_info_version (- EINVAL)
  = if ENUM_IS_UNSIGNED then 2 ^ 32 - EINVAL else - EINVAL.
Proof using EINVAL_range.
  unfold to_ddr_info_version, to_u32, MAX_ERRNO in *.
  destruct ENUM_IS_UNSIGNED; [|done].
  symmetry. apply (Z.mod_unique _ _ (-1)); lia.
Qed.

(** X1.  Where [smem_dram_parse] is memory safe.  A call faults when SMEM
    holds an item of the size of [INFO_V3_WITH_14_FREQS] and the allocation
    succeeds: the extractor then reads [ddr_freq[13]] of an array of 13.
    Every other call returns, with every load inside the buffer, every
    table entry inside its declared array and every store inside
    [frequencies]; [__dram] is then either untouched or a freshly decoded
    struct, in which case the pointer returned is the one
    [debugfs_create_dir] gave. *)
Theorem X1_smem_dram_parse_faults_only_past_ddr_freq
  (__dram : option smem_dram) (smem_item : option (list byte))
  (kzalloc_ok : bool) (debugfs_dir : dentry) :
  (call_reads_past_ddr_freq (smem_item, kzalloc_ok, debugfs_dir) = true →
   smem_dram_parse __dram smem_item kzalloc_ok debugfs_dir = None)
  ∧ (call_reads_past_ddr_freq (smem_item, kzalloc_ok, debugfs_dir) = false →
     ∃ ret __dram',
       smem_dram_parse __dram smem_item kzalloc_ok debugfs_dir
       = Some (ret, __dram')
       ∧ ((∃ err, ret = ERR_PTR err ∧ __dram' = __dram)
          ∨ (∃ data dram,
               smem_item = Some data ∧ kzalloc_ok = true
               ∧ ret = debugfs_dir ∧ __dram' = Some dram
               ∧ decodes
                   (smem_dram_infer_struct_version (Z.of_nat (length data)))
                   data dram))).
Proof using EINVAL_range.
  split.
  - unfold call_reads_past_ddr_freq.
    destruct smem_item as [data|]; [|done].
    destruct kzalloc_ok; [|done]. cbn [andb].
    intros Hver%Z.eqb_eq. by apply smem_dram_parse_v3_14_faults.
  - intros Hsafe.
    destruct (call_succeeds (smem_item, kzalloc_ok, debugfs_dir)) eqn:Hcall.
    + destruct (call_decodable _ _ _ Hcall Hsafe) as (data & -> & -> & Hdecodable).
      destruct (smem_dram_parse_known __dram data debugfs_dir Hdecodable)
        as (dram & Hparse & Hdec).
      exists debugfs_dir, (Some dram). split; [done|]. right.
      by exists data, dram.
    + destruct (smem_dram_parse_error __dram smem_item kzalloc_ok debugfs_dir)
        as (err & Hparse).
      { intros data -> -> Hknown.
        assert (call_succeeds (Some data, true, debugfs_dir) = true) as Hyes
          by (apply call_succeeds_known; by exists data).
        congruence. }
      exists (ERR_PTR err), __dram. split; [done|]. left. by exists err.
Qed.

(** X2.  The error returned on each failing path, [__dram] staying as it
    was: [-ENODATA] when SMEM has no item; [-EINVAL] for a size that is
    large enough but matches no layout; [-ENOMEM] when the size is known and
    the allocation fails.  For an item that is too small the answer depends
    on the type of the enum: with a signed enum the test [ver < 0] fires and
    the call returns [-ENODATA]; with an unsigned enum it never fires, the
    struct is allocated, and the [default] of the [switch] returns [-EINVAL]
    ([-ENOMEM] if the allocation fails). *)
Theorem X2_smem_dram_parse_error_codes (__dram : option smem_dram)
  (kzalloc_ok : bool) (debugfs_dir : dentry) :
  smem_dram_parse __dram None kzalloc_ok debugfs_dir
  = Some (ERR_PTR (- ENODATA), __dram)
  ∧ (∀ data,
       smem_dram_infer_struct_version (Z.of_nat (length data)) = INFO_UNKNOWN →
       smem_dram_parse __dram (Some data) kzalloc_ok debugfs_dir
       = Some (ERR_PTR (- EINVAL), __dram))
  ∧ (∀ data,
       known_version (smem_dram_infer_struct_version (Z.of_nat (length data))) →
       smem_dram_parse __dram (Some data) false debugfs_dir
       = Some (ERR_PTR (- ENOMEM), __dram))
  ∧ (∀ data,
       Z.of_nat (length data) < sizeof ddr_details_v3 →
       smem_dram_parse __dram (Some data) kzalloc_ok debugfs_dir
       = Some (ERR_PTR (if ENUM_IS_UNSIGNED
                        then if kzalloc_ok then - EINVAL else - ENOMEM
                        else - ENODATA), __dram)).
Proof using EINVAL_range.
  split; [done|]. split; [|split].
  - intros data Hv. unfold smem_dram_parse. cbv zeta. rewrite Hv.
    unfold to_ddr_info_version, to_u32, INFO_UNKNOWN.
    by destruct ENUM_IS_UNSIGNED.
  - intros data Hknown. unfold smem_dram_parse. cbv zeta.
    rewrite (to_ddr_info_version_known _ Hknown).
    unfold known_version, INFO_V3 in Hknown. unfold INFO_UNKNOWN.
    destruct (Z.ltb_spec (smem_dram_infer_struct_version (Z.of_nat (length data))) 0);
      [lia|].
    destruct (Z.eqb_spec (smem_dram_infer_struct_version (Z.of_nat (length data))) 0);
      [lia|done].
  - intros data Hsmall. unfold smem_dram_parse. cbv zeta.
    assert (smem_dram_infer_struct_version (Z.of_nat (length data)) = - EINVAL)
      as ->.
    { unfold smem_dram_infer_struct_version.
      destruct (Z.ltb_spec (Z.of_nat (length data)) (sizeof ddr_details_v3));
        [done|lia]. }
    rewrite to_ddr_info_version_too_small. unfold MAX_ERRNO in *.
    destruct ENUM_IS_UNSIGNED.
    + unfold INFO_UNKNOWN, INFO_V3, INFO_V3_WITH_14_FREQS, INFO_V4, INFO_V5,
        INFO_V5_WITH_6_REGIONS.
      destruct (Z.ltb_spec (2 ^ 32 - EINVAL) 0); [lia|].
      destruct (Z.eqb_spec (2 ^ 32 - EINVAL) 0); [lia|].
      destruct kzalloc_ok; [|done]. simpl negb. cbv iota.
      destruct (Z.eqb_spec (2 ^ 32 - EINVAL) 1); [lia|].
      destruct (Z.eqb_spec (2 ^ 32 - EINVAL) 2); [lia|].
      destruct (Z.eqb_spec (2 ^ 32 - EINVAL) 3); [lia|].
      destruct (Z.eqb_spec (2 ^ 32 - EINVAL) 4); [lia|].
      destruct (Z.eqb_spec (2 ^ 32 - EINVAL) 5); [lia|].
      done.
    + destruct (Z.ltb_spec (- EINVAL) 0); [done|lia].
Qed.

(** ** Runs of calls *)

(** A successful call publishes the same struct whatever [__dram] held
    before and whatever [debugfs_create_dir] returns. *)
Lemma smem_dram_parse_fresh (st st' : option smem_dram) (data : list byte)
  (dir dir' : dentry) (dram : smem_dram) :
  known_version (smem_dram_infer_struct_version (Z.of_nat (length data))) →
  smem_dram_parse st (Some data) true dir = Some (dir, Some dram) →
  smem_dram_parse st' (Some data) true dir' = Some (dir', Some dram).
Proof.
  intros Hknown. unfold smem_dram_parse. cbv zeta.
  rewrite (to_ddr_info_version_known _ Hknown).
  revert Hknown.
  generalize (smem_dram_infer_struct_version (Z.of_nat (length data))).
  intros ver Hknown. unfold known_version in Hknown.
  unfold INFO_UNKNOWN, INFO_V3, INFO_V3_WITH_14_FREQS, INFO_V4, INFO_V5,
    INFO_V5_WITH_6_REGIONS in Hknown |- *.
  assert (ver = 1 ∨ ver = 2 ∨ ver = 3 ∨ ver = 4 ∨ ver = 5)
    as [->|[->|[->|[->| ->]]]] by lia;
    cbn [Z.ltb Z.eqb Z.compare Pos.compare Pos.compare_cont Pos.eqb negb orb];
    match goal with
    | |- context [mbind _ ?e] => destruct e as [d|]
    end; cbn [mbind option_bind]; congruence.
Qed.

Lemma parse_history_app (calls1 calls2 : list call) :
  ∀ __dram,
    parse_history (calls1 ++ calls2) __dram
    = h1 ← parse_history calls1 __dram;
      h2 ← parse_history calls2 h1.2;
      Some (h1.1 ++ h2.1, h2.2).
Proof.
  induction calls1 as [|[[smem_item kzalloc_ok] debugfs_dir] calls1 IH];
    intros __dram.
  - cbn [app parse_history mbind option_bind fst snd].
    by destruct (parse_history calls2 __dram) as [[rets final]|].
  - cbn [app parse_history].
    destruct (smem_dram_parse __dram smem_item kzalloc_ok debugfs_dir)
      as [[ret st]|]; [|done].
    cbn [mbind option_bind fst snd]. rewrite IH.
    destruct (parse_history calls1 st) as [[rets1 final1]|]; [|done].
    cbn [mbind option_bind fst snd].
    by destruct (parse_history calls2 final1) as [[rets2 final2]|].
Qed.

Lemma most_recent_parsed_app (calls1 calls2 : list call) :
  ∀ earlier,
    most_recent_parsed (calls1 ++ calls2) earlier
    = most_recent_parsed calls2 (most_recent_parsed calls1 earlier).
Proof.
  induction calls1 as [|c calls1 IH]; intros earlier; [done|].
  cbn [app most_recent_parsed]. apply IH.
Qed.

Lemma parse_history_afresh (calls : list call) :
  ∀ (__dram : option smem_dram) (earlier : option (list byte)),
    Forall (λ c, call_reads_past_ddr_freq c = false) calls →
    publishes_afresh earlier __dram →
    ∃ rets final,
      parse_history calls __dram = Some (rets, final)
      ∧ publishes_afresh (most_recent_parsed calls earlier) final.
Proof using EINVAL_range.
  induction calls as [|[[smem_item kzalloc_ok] debugfs_dir] calls IH];
    intros __dram earlier Hsafe Hpub.
  - exists [], __dram. by simpl.
  - apply Forall_cons in Hsafe as [Hc Hsafe].
    cbn [parse_history most_recent_parsed].
    destruct (call_succeeds (smem_item, kzalloc_ok, debugfs_dir)) eqn:Hcall.
    + destruct (call_decodable _ _ _ Hcall Hc) as (data & -> & -> & Hdecodable).
      destruct (smem_dram_parse_known __dram data debugfs_dir Hdecodable)
        as (dram & Hparse & _).
      rewrite Hparse. cbn [mbind option_bind fst snd].
      destruct (IH (Some dram) (Some data) Hsafe) as (rets & final & -> & Hfin).
      { split; [done|]. intros st dir.
        by apply (smem_dram_parse_fresh __dram st data debugfs_dir dir);
          [apply Hdecodable|]. }
      by exists (debugfs_dir :: rets), final.
    + destruct (smem_dram_parse_error __dram smem_item kzalloc_ok debugfs_dir)
        as (err & ->).
      { intros data -> -> Hknown.
        assert (call_succeeds (Some data, true, debugfs_dir) = true) as Hyes
          by (apply call_succeeds_known; by exists data).
        congruence. }
      cbn [mbind option_bind fst snd].
      destruct (IH __dram earlier Hsafe Hpub) as (rets & final & -> & Hfin).
      by exists (ERR_PTR err :: rets), final.
Qed.

(** X3.  The last successful call wins, and wins completely: after any run
    of calls from the initial NULL [__dram] in which no call reads
    [ddr_freq[13]] out of its array, the global is exactly what one call on
    the most recently parsed item publishes on its own, from any state;
    nothing of an earlier result (no frequency, no count, no [hbb]) is left
    in it. *)
Theorem X3_last_successful_parse_wins (calls : list call) :
  Forall (λ c, call_reads_past_ddr_freq c = false) calls →
  ∃ rets final,
    parse_history calls None = Some (rets, final)
    ∧ match most_recent_parsed calls None with
      | Some data =>
          ∀ st dir,
            smem_dram_parse st (Some data) true dir = Some (dir, final)
      | None => final = None
      end.
Proof using EINVAL_range.
  intros Hsafe.
  destruct (parse_history_afresh calls None None Hsafe eq_refl)
    as (rets & final & Hrun & Hfin).
  exists rets, final. split; [done|].
  unfold publishes_afresh in Hfin.
  destruct (most_recent_parsed calls None); [by destruct Hfin|done].
Qed.

(** X4.  Availability is never lost: if [qcom_smem_dram_get_hbb] answers a
    value (not a negative error) after a run of calls, it still answers a
    value after any further calls, failing ones included, as long as no
    call of the run reads [ddr_freq[13]] out of its array. *)
Theorem X4_get_hbb_stays_available (calls1 calls2 : list call) :
  Forall (λ c, call_reads_past_ddr_freq c = false) (calls1 ++ calls2) →
  ∃ rets1 final1 rets2 final2,
    parse_history calls1 None = Some (rets1, final1)
    ∧ parse_history (calls1 ++ calls2) None = Some (rets1 ++ rets2, final2)
    ∧ (0 ≤ qcom_smem_dram_get_hbb final1 →
       0 ≤ qcom_smem_dram_get_hbb final2 ≤ 255).
Proof using EINVAL_range ENODATA_range.
  intros [Hsafe1 Hsafe2]%Forall_app.
  destruct (parse_history_publishes calls1 None None Hsafe1 eq_refl)
    as (rets1 & final1 & Hrun1 & _ & Hpub1).
  destruct (parse_history_publishes calls2 final1
              (most_recent_parsed calls1 None) Hsafe2 Hpub1)
    as (rets2 & final2 & Hrun2 & _ & Hpub2).
  exists rets1, final1, rets2, final2. split; [done|]. split.
  - rewrite parse_history_app, Hrun1. cbn [mbind option_bind fst snd].
    by rewrite Hrun2.
  - intros Havail.
    assert (is_Some (most_recent_parsed calls1 None)) as Hsome1.
    { unfold publishes in Hpub1.
      destruct (most_recent_parsed calls1 None); [by eexists|].
      subst final1. cbn [qcom_smem_dram_get_hbb] in Havail. lia. }
    assert (is_Some (most_recent_parsed calls2 (most_recent_parsed calls1 None)))
      as [data Hsome2] by (apply most_recent_parsed_is_Some; by left).
    unfold publishes in Hpub2. rewrite Hsome2 in Hpub2.
    destruct Hpub2 as (dram & -> & _ & _ & _ & _ & Hhbb).
    cbn [qcom_smem_dram_get_hbb].
    symmetry in Hhbb. apply extracted_hbb_range in Hhbb. lia.
Qed.

(** ** The published struct *)

Lemma entry_hz_enabled (data : list byte) (addr : Z) :
  length (entry_hz data addr) = if entry_enabled data addr then 1%nat else 0%nat.
Proof.
  unfold entry_hz, entry_enabled.
  destruct (load_u32 _ _) as [f|]; [|done].
  destruct (load_u8 _ _) as [e|]; [|done].
  by destruct (f =? 0), (e =? 0).
Qed.

Lemma flat_map_entry_hz_count (data : list byte) (l : list Z) :
  length (flat_map (entry_hz data) l)
  = length (List.filter (entry_enabled data) l).
Proof.
  induction l as [|a l IH]; [done|].
  cbn [flat_map List.filter]. rewrite length_app, entry_hz_enabled, IH.
  by destruct (entry_enabled data a).
Qed.

Lemma walked_entries_length (ver : Z) :
  known_version ver →
  length (walked_entries ver)
  = if (ver =? INFO_V3) || (ver =? INFO_V4) then 13%nat else 14%nat.
Proof.
  unfold known_version, INFO_V3, INFO_V4, INFO_V5_WITH_6_REGIONS. intros Hver.
  assert (ver = 1 ∨ ver = 2 ∨ ver = 3 ∨ ver = 4 ∨ ver = 5)
    as [->|[->|[->|[->| ->]]]] by lia;
    unfold walked_entries;
    cbn [Z.eqb INFO_V3 INFO_V3_WITH_14_FREQS INFO_V4 INFO_V5
           INFO_V5_WITH_6_REGIONS Pos.eqb orb];
    by rewrite length_fmap, length_seqZ.
Qed.

Lemma push_frequency_array_ok (dram dram' : smem_dram) (v : Z) :
  push_frequency dram v = Some dram' → array_ok dram → array_ok dram'.
Proof.
  unfold push_frequency, array_ok, tail_zero, MAX_DDR_FREQ_NUM_V5.
  destruct (0 <=? num_frequencies dram) eqn:H0; [|done].
  destruct (num_frequencies dram <? Z.of_nat (length (frequencies dram))) eqn:H1;
    [|done].
  simpl. intros [= <-] [Hlen Htail]. simpl.
  rewrite length_insert. split; [done|].
  assert (0 ≤ num_frequencies dram < 14) as Hn by lia.
  unfold to_u32. rewrite Z.mod_small by lia.
  replace (Z.to_nat (num_frequencies dram + 1))
    with (Z.to_nat (num_frequencies dram) + 1)%nat by lia.
  rewrite drop_insert_lt by lia.
  rewrite <- drop_drop, Htail, drop_replicate. f_equal. lia.
Qed.

Lemma freq_entry_body_array_ok (data : list byte) (addr : Z)
  (dram dram' : smem_dram) :
  freq_entry_body data addr dram = Some dram' → array_ok dram → array_ok dram'.
Proof.
  unfold freq_entry_body.
  destruct (load_u32 _ _) as [f|]; [|done]. simpl.
  destruct (f =? 0); [by intros [= <-]|].
  destruct (load_u8 _ _) as [e|]; [|done]. simpl.
  destruct (e =? 0); [by intros [= <-]|].
  apply push_frequency_array_ok.
Qed.

Lemma for_from_array_ok (data : list byte) (addr : Z → Z) (iters : nat) :
  ∀ (i : Z) (dram dram' : smem_dram),
    for_from iters i (λ i dram, freq_entry_body data (addr i) dram) dram
    = Some dram' →
    array_ok dram → array_ok dram'.
Proof.
  induction iters as [|iters IH]; intros i dram dram'; simpl.
  - by intros [= <-].
  - destruct (freq_entry_body data (addr i) dram) as [dram1|] eqn:Hbody; [|done].
    simpl. intros Hrest Hok. apply (IH _ _ _ Hrest).
    by apply (freq_entry_body_array_ok data (addr i) dram).
Qed.

Lemma kzalloc_array_ok : array_ok kzalloc_smem_dram.
Proof. split; reflexivity. Qed.

Lemma smem_dram_parse_v3_data_array_ok (dram dram' : smem_dram)
  (data : list byte) (extra : bool) :
  smem_dram_parse_v3_data dram data extra = Some dram' →
  array_ok dram → array_ok dram'.
Proof.
  destruct extra.
  - by rewrite smem_dram_parse_v3_data_extra_faults.
  - rewrite smem_dram_parse_v3_data_walk. unfold for_lt.
    apply for_from_array_ok.
Qed.

Lemma smem_dram_parse_v4_data_array_ok (dram dram' : smem_dram)
  (data : list byte) :
  smem_dram_parse_v4_data dram data = Some dram' →
  array_ok dram → array_ok dram'.
Proof.
  rewrite smem_dram_parse_v4_data_walk. unfold for_lt.
  destruct (load_u8 _ _) as [v|]; [|done]. cbn [mbind option_bind].
  intros Hrun Hok. by apply (for_from_array_ok _ _ _ _ _ _ Hrun).
Qed.

Lemma smem_dram_parse_v5_data_array_ok (dram dram' : smem_dram)
  (data : list byte) :
  smem_dram_parse_v5_data dram data = Some dram' →
  array_ok dram → array_ok dram'.
Proof.
  rewrite smem_dram_parse_v5_data_walk. unfold for_lt.
  destruct (load_u32 _ _) as [v|]; [|done]. cbn [mbind option_bind].
  intros Hrun Hok. by apply (for_from_array_ok _ _ _ _ _ _ Hrun).
Qed.

(** Whatever [smem_dram_parse] leaves in [__dram] is the old value or a
    struct whose array is in order. *)
Lemma smem_dram_parse_array_ok (st : option smem_dram)
  (smem_item : option (list byte)) (kzalloc_ok : bool) (dir ret : dentry)
  (dram : smem_dram) :
  smem_dram_parse st smem_item kzalloc_ok dir = Some (ret, Some dram) →
  st = Some dram ∨ array_ok dram.
Proof.
  unfold smem_dram_parse. destruct smem_item as [data|]; [|left; congruence].
  cbv zeta.
  generalize (to_ddr_info_version
                (smem_dram_infer_struct_version (Z.of_nat (length data)))).
  intros ver.
  destruct (ver <? 0); [left; congruence|].
  destruct (ver =? INFO_UNKNOWN); [left; congruence|].
  destruct (negb kzalloc_ok); [left; congruence|].
  destruct (ver =? INFO_V3).
  { destruct (smem_dram_parse_v3_data _ _ _) as [d|] eqn:Hext; [|done].
    cbn [mbind option_bind]. intros [= <- <-]. right.
    apply (smem_dram_parse_v3_data_array_ok _ _ _ _ Hext), kzalloc_array_ok. }
  destruct (ver =? INFO_V3_WITH_14_FREQS).
  { destruct (smem_dram_parse_v3_data _ _ _) as [d|] eqn:Hext; [|done].
    cbn [mbind option_bind]. intros [= <- <-]. right.
    apply (smem_dram_parse_v3_data_array_ok _ _ _ _ Hext), kzalloc_array_ok. }
  destruct (ver =? INFO_V4).
  { destruct (smem_dram_parse_v4_data _ _) as [d|] eqn:Hext; [|done].
    cbn [mbind option_bind]. intros [= <- <-]. right.
    apply (smem_dram_parse_v4_data_array_ok _ _ _ Hext), kzalloc_array_ok. }
  destruct (_ || _); [|left; congruence].
  destruct (smem_dram_parse_v5_data _ _) as [d|] eqn:Hext; [|done].
  cbn [mbind option_bind]. intros [= <- <-]. right.
  apply (smem_dram_parse_v5_data_array_ok _ _ _ Hext), kzalloc_array_ok.
Qed.

(** X5.  The struct published for a buffer the code decodes ([INFO_V3],
    [INFO_V4], [INFO_V5], [INFO_V5_WITH_6_REGIONS]): the count is
    the number of walked table entries whose frequency and enabled flag are
    both non-zero, so at most 13 for [INFO_V3] and [INFO_V4] and at most 14
    otherwise; [frequencies] holds the listed values in its first
    [num_frequencies] slots and zero in all the others. *)
Theorem X5_published_count_and_array (__dram : option smem_dram)
  (data : list byte) (debugfs_dir : dentry) :
  decodable_version
    (smem_dram_infer_struct_version (Z.of_nat (length data))) →
  ∃ dram,
    smem_dram_parse __dram (Some data) true debugfs_dir
    = Some (debugfs_dir, Some dram)
    ∧ num_frequencies dram
      = Z.of_nat
          (length (List.filter (entry_enabled data)
                     (walked_entries
                        (smem_dram_infer_struct_version
                           (Z.of_nat (length data))))))
    ∧ 0 ≤ num_frequencies dram
      ≤ (if (smem_dram_infer_struct_version (Z.of_nat (length data)) =? INFO_V3)
            || (smem_dram_infer_struct_version (Z.of_nat (length data))
                =? INFO_V4)
         then 13 else 14)
    ∧ length (smem_dram_frequencies_show dram)
      = Z.to_nat (num_frequencies dram)
    ∧ frequencies dram
      = smem_dram_frequencies_show dram
        ++ replicate (14 - Z.to_nat (num_frequencies dram)) 0.
Proof using EINVAL_range.
  intros Hknown.
  destruct (smem_dram_parse_known __dram data debugfs_dir Hknown)
    as (dram & Hparse & Hdec).
  exists dram. split; [done|].
  destruct Hdec as ((Hlen & Hnum0) & Hshow & Hnum & _).
  rewrite flat_map_entry_hz_count in Hnum.
  pose proof (List.filter_length_le (entry_enabled data)
                (walked_entries
                   (smem_dram_infer_struct_version (Z.of_nat (length data)))))
    as Hle.
  rewrite (walked_entries_length _ (proj1 Hknown)) in Hle.
  split; [done|]. split.
  { rewrite Hnum. destruct (_ || _); lia. }
  split.
  { rewrite Hshow, flat_map_entry_hz_count, Hnum. lia. }
  destruct (smem_dram_parse_array_ok _ _ _ _ _ _ Hparse) as [Hold|[_ Htail]].
  { destruct __dram as [d|]; [|done].
    (* the struct is the freshly decoded one in any case *)
    pose proof (smem_dram_parse_fresh (Some d) None data debugfs_dir debugfs_dir
                  dram (proj1 Hknown) Hparse) as Hfresh.
    destruct (smem_dram_parse_array_ok _ _ _ _ _ _ Hfresh) as [?|[_ Htail]];
      [done|].
    unfold tail_zero in Htail. unfold smem_dram_frequencies_show.
    rewrite <- (take_drop (Z.to_nat (num_frequencies dram)) (frequencies dram))
      at 1.
    rewrite Htail, Hlen. done. }
  unfold tail_zero in Htail. unfold smem_dram_frequencies_show.
  rewrite <- (take_drop (Z.to_nat (num_frequencies dram)) (frequencies dram))
    at 1.
  rewrite Htail, Hlen. done.
Qed.

Lemma load_u32_range (data : list byte) (off v : Z) :
  load_u32 data off = Some v → 0 ≤ v < 2 ^ 32.
Proof.
  unfold load_u32.
  destruct (load_u8 data off) as [b0|] eqn:H0; [|done].
  destruct (load_u8 data (off + 1)) as [b1|] eqn:H1; [|done].
  destruct (load_u8 data (off + 2)) as [b2|] eqn:H2; [|done].
  destruct (load_u8 data (off + 3)) as [b3|] eqn:H3; [|done].
  cbn [mbind option_bind]. intros [= <-].
  apply load_u8_range in H0, H1, H2, H3. lia.
Qed.

Lemma elem_of_entry_hz (data : list byte) (addr x : Z) :
  x ∈ entry_hz data addr
  ↔ ∃ freq_khz enabled,
      load_u32 data (addr + offsetof ddr_freq_table "freq_khz") = Some freq_khz
      ∧ load_u8 data (addr + offsetof ddr_freq_table "enabled") = Some enabled
      ∧ freq_khz ≠ 0 ∧ enabled ≠ 0
      ∧ x = to_u32 (1000 * freq_khz).
Proof.
  unfold entry_hz.
  destruct (load_u32 _ _) as [f|].
  2:{ split; [by intros ?%elem_of_nil|by intros (? & ? & [=] & _)]. }
  destruct (load_u8 _ _) as [e|].
  2:{ split; [by intros ?%elem_of_nil|by intros (? & ? & _ & [=] & _)]. }
  destruct (Z.eqb_spec f 0) as [->|Hf]; simpl.
  { split; [by intros ?%elem_of_nil|]. by intros (? & ? & [= <-] & _ & ? & _). }
  destruct (Z.eqb_spec e 0) as [->|He]; simpl.
  { split; [by intros ?%elem_of_nil|].
    by intros (? & ? & _ & [= <-] & _ & ? & _). }
  rewrite list_elem_of_singleton. split.
  - intros ->. by exists f, e.
  - by intros (? & ? & [= <-] & _ & _ & _ & ->).
Qed.

Lemma elem_of_flat_map (F : Z → list Z) (l : list Z) (x : Z) :
  x ∈ flat_map F l ↔ ∃ a, a ∈ l ∧ x ∈ F a.
Proof.
  rewrite list_elem_of_In, in_flat_map. split.
  - intros (a & Ha & Hx). exists a. by rewrite !list_elem_of_In.
  - intros (a & Ha & Hx). exists a. by rewrite <- !list_elem_of_In.
Qed.

(** X6.  What the published list contains, for a buffer the code decodes
    ([INFO_V3], [INFO_V4], [INFO_V5], [INFO_V5_WITH_6_REGIONS]):
    a value is listed exactly when some walked table entry has a non-zero
    [freq_khz] and a non-zero [enabled] and the value is [1000 * freq_khz]
    reduced modulo 2^32.  Nothing else is ever listed, and every listed
    value is below 2^32. *)
Theorem X6_published_values (__dram : option smem_dram)
  (data : list byte) (debugfs_dir : dentry) :
  decodable_version
    (smem_dram_infer_struct_version (Z.of_nat (length data))) →
  ∃ dram,
    smem_dram_parse __dram (Some data) true debugfs_dir
    = Some (debugfs_dir, Some dram)
    ∧ ∀ x,
        x ∈ smem_dram_frequencies_show dram
        ↔ ∃ addr freq_khz enabled,
            addr ∈ walked_entries
                     (smem_dram_infer_struct_version (Z.of_nat (length data)))
            ∧ load_u32 data (addr + offsetof ddr_freq_table "freq_khz")
              = Some freq_khz
            ∧ load_u8 data (addr + offsetof ddr_freq_table "enabled")
              = Some enabled
            ∧ freq_khz ≠ 0 ∧ enabled ≠ 0
            ∧ x = (1000 * freq_khz) mod 2 ^ 32.
Proof using EINVAL_range.
  intros Hknown.
  destruct (smem_dram_parse_known __dram data debugfs_dir Hknown)
    as (dram & Hparse & Hdec).
  exists dram. split; [done|].
  destruct Hdec as (_ & Hshow & _ & _). intros x.
  rewrite Hshow, elem_of_flat_map. split.
  - intros (addr & Haddr & Hx). apply elem_of_entry_hz in Hx
      as (f & e & Hf & He & Hf0 & He0 & ->).
    by exists addr, f, e.
  - intros (addr & f & e & Haddr & Hf & He & Hf0 & He0 & ->).
    exists addr. split; [done|]. apply elem_of_entry_hz. by exists f, e.
Qed.

(** X7.  No wrap, no zero: if every enabled walked entry of a buffer the
    code decodes has [freq_khz] at most 4294967 (the largest value whose
    thousandfold fits 32 bits), then the published frequencies are exactly
    the values [1000 * freq_khz] of the enabled walked entries, and each of
    them is positive. *)
Theorem X7_frequencies_exact_below_wrap (__dram : option smem_dram)
  (data : list byte) (debugfs_dir : dentry) :
  decodable_version
    (smem_dram_infer_struct_version (Z.of_nat (length data))) →
  (∀ addr freq_khz enabled,
     addr ∈ walked_entries
              (smem_dram_infer_struct_version (Z.of_nat (length data))) →
     load_u32 data (addr + offsetof ddr_freq_table "freq_khz") = Some freq_khz →
     load_u8 data (addr + offsetof ddr_freq_table "enabled") = Some enabled →
     freq_khz ≠ 0 → enabled ≠ 0 → freq_khz ≤ 4294967) →
  ∃ dram,
    smem_dram_parse __dram (Some data) true debugfs_dir
    = Some (debugfs_dir, Some dram)
    ∧ ∀ x,
        x ∈ smem_dram_frequencies_show dram
        ↔ ∃ addr freq_khz enabled,
            addr ∈ walked_entries
                     (smem_dram_infer_struct_version (Z.of_nat (length data)))
            ∧ load_u32 data (addr + offsetof ddr_freq_table "freq_khz")
              = Some freq_khz
            ∧ load_u8 data (addr + offsetof ddr_freq_table "enabled")
              = Some enabled
            ∧ freq_khz ≠ 0 ∧ enabled ≠ 0
            ∧ x = 1000 * freq_khz ∧ 0 < x.
Proof using EINVAL_range.
  intros Hknown Hsmall.
  destruct (smem_dram_parse_known __dram data debugfs_dir Hknown)
    as (dram & Hparse & Hdec).
  exists dram. split; [done|].
  destruct Hdec as (_ & Hshow & _ & _).
  intros x. rewrite Hshow, elem_of_flat_map. split.
  - intros (addr & Haddr & Hx).
    apply elem_of_entry_hz in Hx as (f & e & Hf & He & Hf0 & He0 & ->).
    pose proof (Hsmall addr f e Haddr Hf He Hf0 He0) as Hbound.
    pose proof (load_u32_range _ _ _ Hf) as Hrange.
    exists addr, f, e. unfold to_u32. rewrite Z.mod_small by lia.
    repeat split; (done || lia).
  - intros (addr & f & e & Haddr & Hf & He & Hf0 & He0 & -> & _).
    pose proof (Hsmall addr f e Haddr Hf He Hf0 He0) as Hbound.
    pose proof (load_u32_range _ _ _ Hf) as Hrange.
    exists addr. split; [done|]. apply elem_of_entry_hz. exists f, e.
    unfold to_u32. rewrite Z.mod_small by lia. done.
Qed.

(** ** The extractors against each other *)

Lemma for_from_ext {S : Type} (body1 body2 : Z → S → option S) (iters : nat) :
  (∀ i s, body1 i s = body2 i s) →
  ∀ i s, for_from iters i body1 s = for_from iters i body2 s.
Proof.
  intros Hext. induction iters as [|iters IH]; intros i s; [done|].
  cbn [for_from]. rewrite Hext. destruct (body2 i s) as [s'|]; [|done].
  cbn [mbind option_bind]. apply IH.
Qed.

(** X8.  The three extractors share one table walk, on every buffer and
    every struct, faults included, because all three layouts put the table
    at the same offset.  The V4 extractor is the V3 extractor run after
    [hbb] is set from [highest_bank_addr_bit[0][0]].  The V5 extractor is
    [hbb] set from the regions header, then the V3 extractor, then the loop
    body on entry 13 of the 14-element table of [struct ddr_freq_plan_v5].
    The V3 extractor itself cannot take that last step: asked for the
    additional entry it never completes, since entry 13 lies outside the
    13-element table of [struct ddr_freq_plan_v3]. *)
Theorem X8_extractors_share_the_walk (dram : smem_dram) (data : list byte) :
  smem_dram_parse_v4_data dram data
  = (v ← load_u8 data (highest_bank_addr_bit_addr 0 0);
     smem_dram_parse_v3_data (set_hbb dram v) data false)
  ∧ smem_dram_parse_v5_data dram data
    = (v ← load_u32 data (regions_hbb_addr 0);
       dram' ← smem_dram_parse_v3_data (set_hbb dram v) data false;
       freq_entry_body data
         (ddr_freq_addr ddr_details_v5 ddr_freq_plan_v5 13) dram')
  ∧ smem_dram_parse_v3_data dram data true = None.
Proof.
  split; [|split].
  - rewrite smem_dram_parse_v4_data_walk.
    destruct (load_u8 _ _) as [v|]; [|done]. cbn [mbind option_bind].
    rewrite smem_dram_parse_v3_data_walk. unfold for_lt.
    apply for_from_ext. intros i s.
    by rewrite ddr_freq_addr_v3, ddr_freq_addr_v4.
  - rewrite smem_dram_parse_v5_data_walk.
    destruct (load_u32 _ _) as [v|]; [|done]. cbn [mbind option_bind].
    rewrite smem_dram_parse_v3_data_walk. unfold for_lt.
    change (Z.to_nat MAX_DDR_FREQ_NUM_V5) with (Datatypes.S 13).
    change (Z.to_nat MAX_DDR_FREQ_NUM_V3) with 13%nat.
    rewrite for_from_last.
    rewrite (for_from_ext
               (λ i dram,
                  freq_entry_body data
                    (ddr_freq_addr ddr_details_v5 ddr_freq_plan_v5 i) dram)
               (λ i dram,
                  freq_entry_body data
                    (ddr_freq_addr ddr_details_v3 ddr_freq_plan_v3 i) dram)).
    + done.
    + intros i s. by rewrite ddr_freq_addr_v3, ddr_freq_addr_v5.
  - apply smem_dram_parse_v3_data_extra_faults.
Qed.

(** ** The extractors on a struct that is not fresh *)

Lemma freq_entry_body_cases (data : list byte) (addr : Z) (dram : smem_dram) :
  0 ≤ addr → addr + sizeof ddr_freq_table ≤ Z.of_nat (length data) →
  freq_entry_body data addr dram
  = match entry_hz data addr with
    | [] => Some dram
    | x :: _ => push_frequency dram x
    end.
Proof.
  intros Haddr Hend. change (sizeof ddr_freq_table) with 8 in Hend.
  unfold freq_entry_body, entry_hz.
  change (offsetof ddr_freq_table "freq_khz") with 0.
  change (offsetof ddr_freq_table "enabled") with 4.
  destruct (load_u32_in_bounds data (addr + 0)) as (f & -> & Hf); [lia..|].
  destruct (load_u8_in_bounds data (addr + 4)) as (e & -> & He); [lia|].
  simpl. destruct (f =? 0); [done|]. simpl. by destruct (e =? 0).
Qed.

Lemma for_from_capacity (data : list byte) (addr : Z → Z) (iters : nat) :
  ∀ (i : Z) (dram : smem_dram),
    (∀ j, i ≤ j < i + Z.of_nat iters →
          0 ≤ addr j ∧ addr j + sizeof ddr_freq_table ≤ Z.of_nat (length data)) →
    length (frequencies dram) = Z.to_nat MAX_DDR_FREQ_NUM_V5 →
    0 ≤ num_frequencies dram ≤ MAX_DDR_FREQ_NUM_V5 →
    let new := flat_map (λ j, entry_hz data (addr j)) (seqZ i (Z.of_nat iters)) in
    (num_frequencies dram + Z.of_nat (length new) ≤ MAX_DDR_FREQ_NUM_V5 →
     ∃ dram',
       for_from iters i (λ i dram, freq_entry_body data (addr i) dram) dram
       = Some dram'
       ∧ hbb dram' = hbb dram
       ∧ num_frequencies dram' = num_frequencies dram + Z.of_nat (length new)
       ∧ smem_dram_frequencies_show dram'
         = smem_dram_frequencies_show dram ++ new)
    ∧ (MAX_DDR_FREQ_NUM_V5 < num_frequencies dram + Z.of_nat (length new) →
       for_from iters i (λ i dram, freq_entry_body data (addr i) dram) dram
       = None).
Proof.
  induction iters as [|iters IH]; intros i dram Hin Hlen Hnum new.
  - subst new. simpl. split; [|lia]. intros _. exists dram.
    rewrite app_nil_r. repeat split; (done || lia).
  - subst new. rewrite seqZ_step. cbn [for_from flat_map].
    destruct (Hin i) as [Ha0 Ha1]; [lia|].
    rewrite (freq_entry_body_cases data (addr i) dram Ha0 Ha1).
    pose proof (entry_hz_length data (addr i)) as Hle.
    assert (∀ j, i + 1 ≤ j < i + 1 + Z.of_nat iters →
                 0 ≤ addr j
                 ∧ addr j + sizeof ddr_freq_table ≤ Z.of_nat (length data))
      as Hin' by (intros j Hj; apply Hin; lia).
    destruct (entry_hz data (addr i)) as [|x [|y rest]]; [| |simpl in Hle; lia].
    + cbn [mbind option_bind app]. apply (IH (i + 1) dram Hin' Hlen Hnum).
    + rewrite length_app. cbn [length app].
      destruct (push_frequency dram x) as [dram1|] eqn:Hpush.
      * destruct (show_push _ _ _ Hlen Hpush) as (Hlt & Hhbb1 & Hlen1 & Hnum1 & Hshow1).
        cbn [mbind option_bind].
        destruct (IH (i + 1) dram1 Hin' Hlen1) as [Hfit Hover]; [lia|].
        split.
        -- intros Hcap. destruct Hfit as (dram' & -> & ? & ? & Hshow'); [lia|].
           exists dram'. rewrite Hshow', Hshow1, <- app_assoc.
           repeat split; (done || congruence || lia).
        -- intros Hcap. apply Hover. lia.
      * cbn [mbind option_bind]. split; [|done]. intros Hcap. exfalso.
        unfold push_frequency, MAX_DDR_FREQ_NUM_V5 in *.
        destruct (0 <=? num_frequencies dram) eqn:H0; [|lia].
        destruct (num_frequencies dram <? Z.of_nat (length (frequencies dram)))
          eqn:H1; [done|lia].
Qed.

(** X9.  The extractors do not check the capacity of [frequencies]
    themselves.  On a buffer that holds the whole table and a struct that
    already lists some frequencies, the V3 extractor (without the
    additional entry) appends what the thirteen walked entries contribute
    after the values already listed, leaving [hbb] alone, as long as the
    new count stays within the 14 slots; when it would not, a store lands
    past the array.  (Inside [smem_dram_parse] the struct is always the
    zeroed allocation, so this cannot happen there.) *)
Theorem X9_v3_extractor_appends_within_capacity (dram : smem_dram)
  (data : list byte) :
  length (frequencies dram) = Z.to_nat MAX_DDR_FREQ_NUM_V5 →
  0 ≤ num_frequencies dram ≤ MAX_DDR_FREQ_NUM_V5 →
  ddr_freq_addr ddr_details_v3 ddr_freq_plan_v3 MAX_DDR_FREQ_NUM_V3
  ≤ Z.of_nat (length data) →
  let new := flat_map (entry_hz data) (walked_entries INFO_V3) in
  (num_frequencies dram + Z.of_nat (length new) ≤ MAX_DDR_FREQ_NUM_V5 →
   ∃ dram',
     smem_dram_parse_v3_data dram data false = Some dram'
     ∧ hbb dram' = hbb dram
     ∧ num_frequencies dram' = num_frequencies dram + Z.of_nat (length new)
     ∧ smem_dram_frequencies_show dram'
       = smem_dram_frequencies_show dram ++ new)
  ∧ (MAX_DDR_FREQ_NUM_V5 < num_frequencies dram + Z.of_nat (length new) →
     smem_dram_parse_v3_data dram data false = None).
Proof.
  intros Hlen Hnum Hfit new.
  assert (new = flat_map
                  (λ j, entry_hz data
                          (ddr_freq_addr ddr_details_v3 ddr_freq_plan_v3 j))
                  (seqZ 0 (Z.of_nat 13))) as ->.
  { subst new. by rewrite <- flat_map_fmap. }
  rewrite smem_dram_parse_v3_data_walk. unfold for_lt.
  change (Z.to_nat MAX_DDR_FREQ_NUM_V3) with 13%nat.
  apply (for_from_capacity data
           (ddr_freq_addr ddr_details_v3 ddr_freq_plan_v3)
           13%nat 0 dram); [|done|done].
  intros j Hj. rewrite ddr_freq_addr_v3 in Hfit |- *.
  change (sizeof ddr_freq_table) with 8.
  unfold MAX_DDR_FREQ_NUM_V3 in Hfit.
  destruct CONFIG_PHYS_ADDR_T_64BIT; lia.
Qed.

(** ** Sizes the classifier refuses *)

(** X10.  Only four and six regions make a V5 buffer: a buffer of the size
    of [struct ddr_details_v5] followed by any other number [k >= 0] of
    region records is classified [INFO_UNKNOWN], for either width of
    [phys_addr_t]. *)
Theorem X10_v5_other_region_counts_unknown (k : Z) :
  0 ≤ k → k ≠ 4 → k ≠ 6 →
  smem_dram_infer_struct_version
    (sizeof ddr_details_v5 + k * sizeof ddr_region_v5) = INFO_UNKNOWN.
Proof.
  intros Hk H4 H6. unfold smem_dram_infer_struct_version.
  destruct sizeof_layouts as (-> & -> & _ & -> & -> & ->).
  destruct CONFIG_PHYS_ADDR_T_64BIT;
    repeat match goal with
           | |- context [?a <? ?b] => destruct (Z.ltb_spec a b)
           | |- context [?a =? ?b] => destruct (Z.eqb_spec a b)
           end; (done || lia).
Qed.

(** ** The debugfs file *)

Lemma append_String (c : Ascii.ascii) (s t : string) :
  String c s +:+ t = String c (s +:+ t).
Proof. reflexivity. Qed.

Lemma append_assoc (s t u : string) : (s +:+ t) +:+ u = s +:+ t +:+ u.
Proof.
  induction s as [|c s IH]; [done|]. by rewrite !append_String, IH.
Qed.

Lemma seq_printf_lu_lines (l : list Z) :
  ∀ s, fold_left seq_printf_lu l s = s +:+ lines_of l.
Proof.
  induction l as [|v l IH]; intros s; cbn [fold_left lines_of].
  - induction s as [|c s IHs]; [done|]. by rewrite append_String, <- IHs.
  - rewrite IH. unfold seq_printf_lu. by rewrite !append_assoc.
Qed.

Lemma digits_no_newline (d : Decimal.uint) :
  no_newline (DecimalString.NilEmpty.string_of_uint d).
Proof. induction d; simpl; (done || (split; [discriminate|done])). Qed.

Lemma decimal_no_newline (n : N) :
  no_newline (DecimalString.NilZero.string_of_uint (N.to_uint n)).
Proof.
  destruct (N.to_uint n) eqn:Hd;
    try (rewrite <- Hd; unfold DecimalString.NilZero.string_of_uint;
         rewrite Hd; rewrite <- Hd at 1; rewrite Hd; apply digits_no_newline).
  simpl. split; [discriminate|done].
Qed.

Lemma decimal_inj (a b : N) :
  DecimalString.NilZero.string_of_uint (N.to_uint a)
  = DecimalString.NilZero.string_of_uint (N.to_uint b) →
  a = b.
Proof.
  intros Heq. apply DecimalN.Unsigned.to_uint_inj.
  assert (∀ n, N.to_uint n ≠ Decimal.Nil) as Hnonnil.
  { intros [|p]; [discriminate|apply DecimalPos.Unsigned.to_uint_nonnil]. }
  pose proof (DecimalString.NilZero.usu _ (Hnonnil a)) as Ha.
  pose proof (DecimalString.NilZero.usu _ (Hnonnil b)) as Hb.
  rewrite Heq in Ha. congruence.
Qed.

Lemma line_split (s1 : string) :
  ∀ s2 r1 r2,
    no_newline s1 → no_newline s2 →
    s1 +:+ String newline r1 = s2 +:+ String newline r2 →
    s1 = s2 ∧ r1 = r2.
Proof.
  induction s1 as [|c s1 IH]; intros [|c2 s2] r1 r2 Hn1 Hn2;
    rewrite ?append_String; cbn [String.append].
  - by intros [= ->].
  - intros [= <- _]. by destruct Hn2.
  - intros [= -> _]. by destruct Hn1.
  - intros [= <- Hrest]. destruct Hn1 as [_ Hn1], Hn2 as [_ Hn2].
    destruct (IH s2 r1 r2 Hn1 Hn2 Hrest) as [-> ->]. done.
Qed.

Lemma lines_of_inj (l : list Z) :
  ∀ l', Forall (λ v, 0 ≤ v) l → Forall (λ v, 0 ≤ v) l' →
        lines_of l = lines_of l' → l = l'.
Proof.
  induction l as [|v l IH]; intros [|v' l'] Hl Hl'; cbn [lines_of].
  - done.
  - destruct (DecimalString.NilZero.string_of_uint _); discriminate.
  - destruct (DecimalString.NilZero.string_of_uint _); discriminate.
  - intros Heq. apply line_split in Heq as [Hv Hrest];
      [|apply decimal_no_newline..].
    apply decimal_inj in Hv.
    apply Forall_cons in Hl as [Hv0 Hl]. apply Forall_cons in Hl' as [Hv0' Hl'].
    f_equal; [lia|by apply IH].
Qed.

Lemma for_from_show (fr : list Z) (iters : nat) :
  ∀ (i : nat) (s : string),
    (i ≤ length fr)%nat →
    for_from iters (Z.of_nat i)
      (λ i s, v ← fr !! Z.to_nat i; Some (seq_printf_lu s v)) s
    = if decide (i + iters ≤ length fr)%nat
      then Some (fold_left seq_printf_lu (take iters (drop i fr)) s)
      else None.
Proof.
  induction iters as [|iters IH]; intros i s Hi.
  - rewrite decide_True by lia. done.
  - cbn [for_from]. rewrite Nat2Z.id.
    destruct (fr !! i) as [v|] eqn:Hv.
    + apply lookup_lt_Some in Hv as Hlt. cbn [mbind option_bind].
      replace (Z.of_nat i + 1) with (Z.of_nat (Datatypes.S i)) by lia.
      rewrite IH by lia. rewrite (drop_S _ _ _ Hv). cbn [take fold_left].
      destruct (decide (Datatypes.S i + iters ≤ length fr)%nat);
        [rewrite decide_True by lia|rewrite decide_False by lia]; done.
    + apply lookup_ge_None in Hv. cbn [mbind option_bind].
      rewrite decide_False by lia. done.
Qed.

(** X11.  [smem_dram_frequencies_show] on a struct whose array has its 14
    slots: when the count is within the array it prints, after what the
    seq_file already holds, exactly the first [num_frequencies] values in
    order, each as its decimal digits and a newline, and returns 0; when
    the count exceeds 14 it reads past the array. *)
Theorem X11_show_prints_the_listed_values (dram : smem_dram) (s : string) :
  length (frequencies dram) = Z.to_nat MAX_DDR_FREQ_NUM_V5 →
  0 ≤ num_frequencies dram →
  (num_frequencies dram ≤ MAX_DDR_FREQ_NUM_V5 →
   smem_dram_frequencies_show_seq dram s
   = Some (s +:+ lines_of (smem_dram_frequencies_show dram), 0))
  ∧ (MAX_DDR_FREQ_NUM_V5 < num_frequencies dram →
     smem_dram_frequencies_show_seq dram s = None).
Proof.
  intros Hlen Hnum.
  unfold smem_dram_frequencies_show_seq, for_lt, smem_dram_frequencies_show,
    MAX_DDR_FREQ_NUM_V5 in *.
  rewrite (for_from_show (frequencies dram) _ 0 s) by lia.
  rewrite drop_0. split; intros Hcmp.
  - rewrite decide_True by lia. cbn [mbind option_bind].
    by rewrite seq_printf_lu_lines.
  - by rewrite decide_False by lia.
Qed.

(** X12.  The text of the debugfs file determines the list: two lists of
    non-negative values that print the same text are the same list. *)
Theorem X12_show_text_determines_the_list (l l' : list Z) :
  Forall (λ v, 0 ≤ v) l → Forall (λ v, 0 ≤ v) l' →
  fold_left seq_printf_lu l "" = fold_left seq_printf_lu l' "" →
  l = l'.
Proof.
  intros Hl Hl'. rewrite !seq_printf_lu_lines. cbn [String.append].
  by apply lines_of_inj.
Qed.

(** X13.  Parse, then read the debugfs file: for a buffer the code
    decodes ([INFO_V3], [INFO_V4], [INFO_V5], [INFO_V5_WITH_6_REGIONS]) the
    file of the published struct shows, one decimal value per
    line and in table order, [1000 * freq_khz] modulo 2^32 for each walked
    entry with non-zero frequency and enabled flag, and nothing else; the
    show function returns 0. *)
Theorem X13_show_after_parse (__dram : option smem_dram) (data : list byte)
  (debugfs_dir : dentry) :
  decodable_version
    (smem_dram_infer_struct_version (Z.of_nat (length data))) →
  ∃ dram,
    smem_dram_parse __dram (Some data) true debugfs_dir
    = Some (debugfs_dir, Some dram)
    ∧ smem_dram_frequencies_show_seq dram ""
      = Some (lines_of
                (flat_map (entry_hz data)
                   (walked_entries
                      (smem_dram_infer_struct_version
                         (Z.of_nat (length data))))), 0).
Proof using EINVAL_range.
  intros Hknown.
  destruct (smem_dram_parse_known __dram data debugfs_dir Hknown)
    as (dram & Hparse & Hdec).
  exists dram. split; [done|].
  destruct Hdec as ((Hlen & Hnum) & Hshow & _ & _).
  unfold smem_dram_frequencies_show_seq, for_lt, MAX_DDR_FREQ_NUM_V5 in *.
  rewrite (for_from_show (frequencies dram) _ 0 "") by lia.
  rewrite decide_True by lia. cbn [mbind option_bind].
  rewrite drop_0, seq_printf_lu_lines. cbn [String.append].
  unfold smem_dram_frequencies_show in Hshow. by rewrite Hshow.
Qed.

End Target.


(** * Evaluations on the sample buffers

    All for an arm64 build: 64-bit [phys_addr_t], unsigned enums,
    [ENODATA] = 61, [EINVAL] = 22, [ENOMEM] = 12. *)

(** C1 does not hold as the spec words it: in this V4 buffer the eight
    bytes after the thirteen table entries read as a fourteenth entry of
    1600000 kHz, enabled; the decoded list is empty. *)
Lemma C1_v4_slot_13_not_walked :
  smem_dram_infer_struct_version true 22 (Z.of_nat (length sample_v4_slot13))
  = INFO_V4
  ∧ load_u32 sample_v4_slot13
      (ddr_freq_addr true ddr_details_v4 ddr_freq_plan_v3 13
       + offsetof true ddr_freq_table "freq_khz") = Some 1600000
  ∧ load_u8 sample_v4_slot13
      (ddr_freq_addr true ddr_details_v4 ddr_freq_plan_v3 13
       + offsetof true ddr_freq_table "enabled") = Some 1
  ∧ ∃ dram,
      smem_dram_parse true 61 22 12 true None (Some sample_v4_slot13) true sample_dir
      = Some (sample_dir, Some dram)
      ∧ smem_dram_frequencies_show dram = [].
Proof.
  split; [reflexivity|]. split; [reflexivity|]. split; [reflexivity|].
  eexists. split; [vm_compute; reflexivity|reflexivity].
Qed.

Lemma C1_v4_walks_13_entries_witness :
  smem_dram_infer_struct_version true 22 (Z.of_nat (length sample_v4)) = INFO_V4
  ∧ ∃ dram,
      smem_dram_parse true 61 22 12 true None (Some sample_v4) true sample_dir
      = Some (sample_dir, Some dram)
      ∧ last (smem_dram_frequencies_show dram) = Some 800000000.
Proof.
  split; [reflexivity|].
  destruct (C1_v4_walks_13_entries true 61 22 12 true
              ltac:(unfold MAX_ERRNO; lia) None sample_v4 sample_dir eq_refl)
    as (dram & Hparse & _ & _ & Hlast).
  exists dram. split; [exact Hparse|].
  apply (Hlast 800000 1); [reflexivity|reflexivity|lia|lia].
Defined.

(** C4 does not hold as the spec words it: two V5 buffers with the same
    trailing region array, first record included, decode to different
    values. *)
Lemma C4_v5_hbb_not_from_region_record :
  smem_dram_infer_struct_version true 22
    (Z.of_nat (length (sample_v5 5 [x01]))) = INFO_V5
  ∧ smem_dram_infer_struct_version true 22
      (Z.of_nat (length (sample_v5 9 [x01]))) = INFO_V5
  ∧ drop (Z.to_nat (ddr_region_addr true 0)) (sample_v5 5 [x01])
    = drop (Z.to_nat (ddr_region_addr true 0)) (sample_v5 9 [x01])
  ∧ smem_dram_parse true 61 22 12 true None (Some (sample_v5 5 [x01])) true sample_dir
    = Some (sample_dir,
            Some {| frequencies := 1600000000 :: replicate 13 0;
                    num_frequencies := 1; hbb := 5 |})
  ∧ smem_dram_parse true 61 22 12 true None (Some (sample_v5 9 [x01])) true sample_dir
    = Some (sample_dir,
            Some {| frequencies := 1600000000 :: replicate 13 0;
                    num_frequencies := 1; hbb := 9 |}).
Proof. repeat split; vm_compute; reflexivity. Qed.

Lemma C4_v5_hbb_from_regions_header_witness :
  smem_dram_infer_struct_version true 22
    (Z.of_nat (length (sample_v5_6 265))) = INFO_V5_WITH_6_REGIONS
  ∧ regions_hbb_addr true 0 = 256
  ∧ ddr_region_addr true 0 = 264
  ∧ ∃ dram,
      smem_dram_parse true 61 22 12 true None (Some (sample_v5_6 265)) true sample_dir
      = Some (sample_dir, Some dram)
      ∧ hbb dram = 9.
Proof.
  split; [reflexivity|]. split; [reflexivity|]. split; [reflexivity|].
  destruct (C4_v5_hbb_from_regions_header true 61 22 12 true
              ltac:(unfold MAX_ERRNO; lia) None (sample_v5_6 265) sample_dir
              (or_intror eq_refl))
    as (_ & _ & raw & dram & Hload & Hparse & Hhbb).
  exists dram. split; [exact Hparse|].
  rewrite Hhbb. vm_compute in Hload. injection Hload as <-. reflexivity.
Defined.

(** C2 does not hold as the spec words it: entries 0 and 1 of this V3
    buffer are both 1600000 kHz, enabled; the decoded list holds the value
    twice. *)
Lemma C2_duplicates_are_kept :
  smem_dram_infer_struct_version true 22 (Z.of_nat (length sample_v3_dup))
  = INFO_V3
  ∧ ∃ dram,
      smem_dram_parse true 61 22 12 true None (Some sample_v3_dup) true sample_dir
      = Some (sample_dir, Some dram)
      ∧ smem_dram_frequencies_show dram = [1600000000; 1600000000]
      ∧ ¬ NoDup (smem_dram_frequencies_show dram).
Proof.
  split; [reflexivity|].
  eexists. split; [vm_compute; reflexivity|]. split; [reflexivity|].
  change (¬ NoDup [1600000000; 1600000000]).
  intros Hnd. apply NoDup_cons in Hnd as [Hnotin _].
  apply Hnotin. by left.
Qed.

Lemma C2_equal_entries_both_listed_witness :
  decodable_version
    (smem_dram_infer_struct_version true 22 (Z.of_nat (length sample_v3_dup)))
  ∧ ∃ dram p q,
      smem_dram_parse true 61 22 12 true None (Some sample_v3_dup) true sample_dir
      = Some (sample_dir, Some dram)
      ∧ (p < q)%nat
      ∧ smem_dram_frequencies_show dram !! p = Some 1600000000
      ∧ smem_dram_frequencies_show dram !! q = Some 1600000000.
Proof.
  assert (decodable_version
            (smem_dram_infer_struct_version true 22
               (Z.of_nat (length sample_v3_dup)))) as Hknown.
  { split; [vm_compute; split; discriminate|vm_compute; discriminate]. }
  split; [exact Hknown|].
  destruct (C2_equal_entries_both_listed true 61 22 12 true
              ltac:(unfold MAX_ERRNO; lia) None sample_v3_dup sample_dir Hknown)
    as (dram & Hparse & _ & Htwice).
  destruct (Htwice 0%nat 1%nat 72 80 1600000 1 1)
    as (p & q & Hpq & Hp & Hq);
    [lia|reflexivity|reflexivity|reflexivity|reflexivity|reflexivity
    |reflexivity|lia|lia|lia|].
  exists dram, p, q. split; [exact Hparse|]. split; [exact Hpq|].
  split; [exact Hp|exact Hq].
Defined.

(** C3: the entry (2^29 kHz, enabled) passes the non-zero test, and the
    32-bit product [1000 * freq_khz] wraps to 0, which is stored and
    counted. *)
Lemma C3_wrapped_product_stored_as_zero :
  smem_dram_infer_struct_version true 22 (Z.of_nat (length sample_v3_wrap))
  = INFO_V3
  ∧ load_u32 sample_v3_wrap
      (ddr_freq_addr true ddr_details_v3 ddr_freq_plan_v3 0
       + offsetof true ddr_freq_table "freq_khz") = Some (2 ^ 29)
  ∧ load_u8 sample_v3_wrap
      (ddr_freq_addr true ddr_details_v3 ddr_freq_plan_v3 0
       + offsetof true ddr_freq_table "enabled") = Some 1
  ∧ ∃ dram,
      smem_dram_parse true 61 22 12 true None (Some sample_v3_wrap) true sample_dir
      = Some (sample_dir, Some dram)
      ∧ num_frequencies dram = 1
      ∧ smem_dram_frequencies_show dram = [0].
Proof.
  split; [reflexivity|]. split; [reflexivity|]. split; [reflexivity|].
  eexists. split; [vm_compute; reflexivity|]. split; reflexivity.
Qed.

Lemma C6_filter_and_convert_witness :
  decodable_version
    (smem_dram_infer_struct_version true 22 (Z.of_nat (length sample_v4)))
  ∧ ∃ dram,
      smem_dram_parse true 61 22 12 true None (Some sample_v4) true sample_dir
      = Some (sample_dir, Some dram)
      ∧ smem_dram_frequencies_show dram = [1600000000; 800000000].
Proof.
  assert (decodable_version
            (smem_dram_infer_struct_version true 22
               (Z.of_nat (length sample_v4)))) as Hknown.
  { split; [vm_compute; split; discriminate|vm_compute; discriminate]. }
  split; [exact Hknown|].
  destruct (C6_filter_and_convert true 61 22 12 true
              ltac:(unfold MAX_ERRNO; lia) None sample_v4 sample_dir Hknown)
    as (dram & Hparse & Hentry).
  exists dram. split; [exact Hparse|].
  destruct (Hentry 2%nat 88 eq_refl) as (_ & _ & Hvalid).
  rewrite (Hvalid eq_refl eq_refl). vm_compute. reflexivity.
Defined.

Lemma C5_infer_exact_sizes_witness :
  0 < 22 ≤ MAX_ERRNO
  ∧ smem_dram_infer_struct_version true 22 199 = - 22
  ∧ smem_dram_infer_struct_version true 22 200 = INFO_V3
  ∧ smem_dram_infer_struct_version true 22 208 = INFO_V3_WITH_14_FREQS
  ∧ smem_dram_infer_struct_version true 22 224 = INFO_V4
  ∧ smem_dram_infer_struct_version true 22 424 = INFO_V5
  ∧ smem_dram_infer_struct_version true 22 504 = INFO_V5_WITH_6_REGIONS
  ∧ smem_dram_infer_struct_version true 22 464 = INFO_UNKNOWN.
Proof.
  assert (0 < 22 ≤ MAX_ERRNO) as Hrange by (unfold MAX_ERRNO; lia).
  destruct (C5_infer_exact_sizes true 22 Hrange)
    as (Hsmall & Hexact & _ & Hother & _).
  split; [exact Hrange|].
  split; [apply Hsmall; vm_compute; reflexivity|].
  split; [apply (Hexact INFO_V3); vm_compute; split; discriminate|].
  split; [apply (Hexact INFO_V3_WITH_14_FREQS); vm_compute; split; discriminate|].
  split; [apply (Hexact INFO_V4); vm_compute; split; discriminate|].
  split; [apply (Hexact INFO_V5); vm_compute; split; discriminate|].
  split; [apply (Hexact INFO_V5_WITH_6_REGIONS); vm_compute; split; discriminate|].
  apply Hother; [vm_compute; discriminate|].
  intros ver Hver. rewrite layout_size_eq by exact Hver.
  repeat match goal with |- context [if ?c then _ else _] => destruct c end; lia.
Defined.

Lemma C7_v4_hbb_channel0_rank0_witness :
  smem_dram_infer_struct_version true 22 (Z.of_nat (length sample_v4)) = INFO_V4
  ∧ load_u8 sample_v4 (highest_bank_addr_bit_addr true 0 0) = Some 3
  ∧ load_u8 sample_v4 (highest_bank_addr_bit_addr true 1 0) = Some 7
  ∧ ∃ dram,
      smem_dram_parse true 61 22 12 true None (Some sample_v4) true sample_dir
      = Some (sample_dir, Some dram)
      ∧ hbb dram = 3.
Proof.
  split; [reflexivity|]. split; [reflexivity|]. split; [reflexivity|].
  destruct (C7_v4_hbb_channel0_rank0 true 61 22 12 true
              ltac:(unfold MAX_ERRNO; lia) None sample_v4 sample_dir eq_refl)
    as (v & dram & Hload & Hparse & Hhbb).
  exists dram. split; [exact Hparse|].
  rewrite Hhbb. vm_compute in Hload. injection Hload as <-. reflexivity.
Defined.

(** C8 on two buffers.  The 208-byte one is classified
    [INFO_V3_WITH_14_FREQS] and its bytes at table index 13 read as
    (1600000 kHz, enabled): the call reads [ddr_freq[13]] and has no defined
    result.  The 200-byte one is classified [INFO_V3] and is published
    with [hbb] = 0. *)
Lemma C8_v3_hbb_and_extra_entry_fault_witness :
  0 < 22 ≤ MAX_ERRNO
  ∧ smem_dram_infer_struct_version true 22 (Z.of_nat (length sample_v3_14))
    = INFO_V3_WITH_14_FREQS
  ∧ smem_dram_parse true 61 22 12 true None (Some sample_v3_14) true sample_dir
    = None
  ∧ smem_dram_infer_struct_version true 22 (Z.of_nat (length sample_v3_dup))
    = INFO_V3
  ∧ ∃ dram,
      smem_dram_parse true 61 22 12 true None (Some sample_v3_dup) true
        sample_dir
      = Some (sample_dir, Some dram)
      ∧ hbb dram = 0.
Proof.
  assert (0 < 22 ≤ MAX_ERRNO) as H22 by (unfold MAX_ERRNO; lia).
  split; [exact H22|]. split; [reflexivity|]. split.
  - exact (proj2 (proj2 (C8_v3_hbb_and_extra_entry_fault true 61 22 12 true
                           H22 None sample_v3_14 sample_dir)) eq_refl).
  - split; [reflexivity|].
    exact (proj1 (proj2 (C8_v3_hbb_and_extra_entry_fault true 61 22 12 true
                           H22 None sample_v3_dup sample_dir)) eq_refl).
Defined.

Lemma C10_v5_hbb_low_byte_witness :
  smem_dram_infer_struct_version true 22 (Z.of_nat (length (sample_v5_6 265)))
  = INFO_V5_WITH_6_REGIONS
  ∧ load_u32 (sample_v5_6 265) (regions_hbb_addr true 0) = Some 265
  ∧ ∃ dram,
      smem_dram_parse true 61 22 12 true None (Some (sample_v5_6 265)) true sample_dir
      = Some (sample_dir, Some dram)
      ∧ hbb dram = 9.
Proof.
  split; [reflexivity|]. split; [reflexivity|].
  destruct (C10_v5_hbb_low_byte true 61 22 12 true
              ltac:(unfold MAX_ERRNO; lia) None (sample_v5_6 265) sample_dir
              (or_intror eq_refl))
    as (raw & dram & Hload & _ & Hparse & Hhbb).
  exists dram. split; [exact Hparse|].
  rewrite Hhbb. vm_compute in Hload. injection Hload as <-. reflexivity.
Defined.

(** Four calls: nothing in SMEM, a V4 buffer, a buffer that is too small,
    a V5 buffer whose allocation fails.  The query answers the V4 buffer's
    value.  Before any successful call it answers [-ENODATA]. *)
Lemma C9_get_hbb_most_recent_witness :
  0 < 22 ≤ MAX_ERRNO ∧ 0 < 61 ≤ MAX_ERRNO
  ∧ (∃ rets final,
       parse_history true 61 22 12 true
         [(None, true, sample_dir); (Some sample_v4, true, sample_dir);
          (Some (zeros 100), true, sample_dir);
          (Some (sample_v5 9 [x01]), false, sample_dir)] None
       = Some (rets, final)
       ∧ qcom_smem_dram_get_hbb 61 final = 3)
  ∧ (∃ rets final,
       parse_history true 61 22 12 true
         [(None, true, sample_dir); (Some (zeros 100), true, sample_dir)] None
       = Some (rets, final)
       ∧ qcom_smem_dram_get_hbb 61 final = - 61).
Proof.
  assert (0 < 22 ≤ MAX_ERRNO) as H22 by (unfold MAX_ERRNO; lia).
  assert (0 < 61 ≤ MAX_ERRNO) as H61 by (unfold MAX_ERRNO; lia).
  split; [exact H22|]. split; [exact H61|]. split.
  - destruct (C9_get_hbb_most_recent true 61 22 12 true H22 H61
                [(None, true, sample_dir); (Some sample_v4, true, sample_dir);
                 (Some (zeros 100), true, sample_dir);
                 (Some (sample_v5 9 [x01]), false, sample_dir)])
      as (rets & final & Hrun & _ & _ & _ & Hget);
      [repeat constructor|].
    exists rets, final. split; [exact Hrun|].
    vm_compute in Hrun. injection Hrun as <- <-. reflexivity.
  - destruct (C9_get_hbb_most_recent true 61 22 12 true H22 H61
                [(None, true, sample_dir); (Some (zeros 100), true, sample_dir)])
      as (rets & final & Hrun & _ & _ & _ & Hget);
      [repeat constructor|].
    exists rets, final. split; [exact Hrun|].
    vm_compute in Hrun. injection Hrun as <- <-. reflexivity.
Defined.

(** ** The further properties on the sample buffers *)

(** X1 on two buffers: the 208-byte V3 buffer faults; the V4 buffer is
    loaded from, stored to [frequencies] twice and published. *)
Lemma X1_smem_dram_parse_faults_only_past_ddr_freq_witness :
  0 < 22 ≤ MAX_ERRNO
  ∧ smem_dram_parse true 61 22 12 true None (Some sample_v3_14) true sample_dir
    = None
  ∧ ∃ dram,
      smem_dram_parse true 61 22 12 true None (Some sample_v4) true sample_dir
      = Some (sample_dir, Some dram)
      ∧ smem_dram_frequencies_show dram = [1600000000; 800000000].
Proof.
  assert (0 < 22 ≤ MAX_ERRNO) as H22 by (unfold MAX_ERRNO; lia).
  split; [exact H22|]. split.
  - exact (proj1 (X1_smem_dram_parse_faults_only_past_ddr_freq true 61 22 12
                    true H22 None (Some sample_v3_14) true sample_dir)
             eq_refl).
  - destruct (proj2 (X1_smem_dram_parse_faults_only_past_ddr_freq true 61 22
                       12 true H22 None (Some sample_v4) true sample_dir)
                eq_refl)
      as (ret & st & Hparse & _).
    vm_compute in Hparse. injection Hparse as <- <-.
    eexists. split; [vm_compute; reflexivity|reflexivity].
Defined.

Lemma X2_smem_dram_parse_error_codes_witness :
  0 < 22 ≤ MAX_ERRNO
  ∧ smem_dram_parse true 61 22 12 true None None true sample_dir
    = Some (ERR_PTR (- 61), None)
  ∧ smem_dram_parse true 61 22 12 true None (Some (zeros 300)) true sample_dir
    = Some (ERR_PTR (- 22), None)
  ∧ smem_dram_parse true 61 22 12 true None (Some sample_v4) false sample_dir
    = Some (ERR_PTR (- 12), None)
  ∧ smem_dram_parse true 61 22 12 true None (Some (zeros 100)) true sample_dir
    = Some (ERR_PTR (- 22), None)
  ∧ smem_dram_parse true 61 22 12 false None (Some (zeros 100)) true sample_dir
    = Some (ERR_PTR (- 61), None).
Proof.
  assert (0 < 22 ≤ MAX_ERRNO) as H22 by (unfold MAX_ERRNO; lia).
  split; [exact H22|].
  destruct (X2_smem_dram_parse_error_codes true 61 22 12 true H22
              None true sample_dir) as (Hnone & Hunknown & _ & Hsmall).
  destruct (X2_smem_dram_parse_error_codes true 61 22 12 true H22
              None false sample_dir) as (_ & _ & Hnomem & _).
  destruct (X2_smem_dram_parse_error_codes true 61 22 12 false H22
              None true sample_dir) as (_ & _ & _ & Hsigned).
  split; [exact Hnone|].
  split; [apply Hunknown; reflexivity|].
  split; [apply Hnomem; vm_compute; split; discriminate|].
  split; [apply (Hsmall (zeros 100)); vm_compute; reflexivity|].
  apply (Hsigned (zeros 100)); vm_compute; reflexivity.
Defined.

Lemma X3_last_successful_parse_wins_witness :
  0 < 22 ≤ MAX_ERRNO
  ∧ ∃ rets final,
      parse_history true 61 22 12 true
        [(Some sample_v3_dup, true, sample_dir);
         (Some sample_v4, true, sample_dir);
         (Some (zeros 100), true, sample_dir)] None
      = Some (rets, final)
      ∧ smem_dram_parse true 61 22 12 true None (Some sample_v4) true sample_dir
        = Some (sample_dir, final).
Proof.
  assert (0 < 22 ≤ MAX_ERRNO) as H22 by (unfold MAX_ERRNO; lia).
  split; [exact H22|].
  destruct (X3_last_successful_parse_wins true 61 22 12 true H22
              [(Some sample_v3_dup, true, sample_dir);
               (Some sample_v4, true, sample_dir);
               (Some (zeros 100), true, sample_dir)])
    as (rets & final & Hrun & Hlast); [repeat constructor|].
  exists rets, final. split; [exact Hrun|].
  exact (Hlast None sample_dir).
Defined.

Lemma X4_get_hbb_stays_available_witness :
  0 < 22 ≤ MAX_ERRNO ∧ 0 < 61 ≤ MAX_ERRNO
  ∧ ∃ rets final,
      parse_history true 61 22 12 true
        ([(Some sample_v4, true, sample_dir)]
         ++ [(Some (zeros 100), true, sample_dir); (None, false, sample_dir)])
        None
      = Some (rets, final)
      ∧ 0 ≤ qcom_smem_dram_get_hbb 61 final ≤ 255.
Proof.
  assert (0 < 22 ≤ MAX_ERRNO) as H22 by (unfold MAX_ERRNO; lia).
  assert (0 < 61 ≤ MAX_ERRNO) as H61 by (unfold MAX_ERRNO; lia).
  split; [exact H22|]. split; [exact H61|].
  destruct (X4_get_hbb_stays_available true 61 22 12 true H22 H61
              [(Some sample_v4, true, sample_dir)]
              [(Some (zeros 100), true, sample_dir); (None, false, sample_dir)])
    as (rets1 & final1 & rets2 & final2 & Hrun1 & Hrun & Havail);
    [repeat constructor|].
  exists (rets1 ++ rets2), final2. split; [exact Hrun|].
  apply Havail. vm_compute in Hrun1. injection Hrun1 as <- <-.
  cbv [qcom_smem_dram_get_hbb hbb]. lia.
Defined.

Lemma X5_published_count_and_array_witness :
  decodable_version
    (smem_dram_infer_struct_version true 22 (Z.of_nat (length sample_v4)))
  ∧ ∃ dram,
      smem_dram_parse true 61 22 12 true None (Some sample_v4) true sample_dir
      = Some (sample_dir, Some dram)
      ∧ num_frequencies dram = 2
      ∧ frequencies dram
        = smem_dram_frequencies_show dram ++ replicate 12 0.
Proof.
  assert (decodable_version
            (smem_dram_infer_struct_version true 22
               (Z.of_nat (length sample_v4)))) as Hknown.
  { split; [vm_compute; split; discriminate|vm_compute; discriminate]. }
  split; [exact Hknown|].
  destruct (X5_published_count_and_array true 61 22 12 true
              ltac:(unfold MAX_ERRNO; lia) None sample_v4 sample_dir Hknown)
    as (dram & Hparse & Hnum & _ & _ & Harr).
  assert (num_frequencies dram = 2) as Htwo by (rewrite Hnum; reflexivity).
  exists dram. split; [exact Hparse|]. split; [exact Htwo|].
  rewrite Htwo in Harr. exact Harr.
Defined.

Lemma X6_published_values_witness :
  decodable_version
    (smem_dram_infer_struct_version true 22 (Z.of_nat (length sample_v4)))
  ∧ ∃ dram,
      smem_dram_parse true 61 22 12 true None (Some sample_v4) true sample_dir
      = Some (sample_dir, Some dram)
      ∧ 800000000 ∈ smem_dram_frequencies_show dram.
Proof.
  assert (decodable_version
            (smem_dram_infer_struct_version true 22
               (Z.of_nat (length sample_v4)))) as Hknown.
  { split; [vm_compute; split; discriminate|vm_compute; discriminate]. }
  split; [exact Hknown|].
  destruct (X6_published_values true 61 22 12 true
              ltac:(unfold MAX_ERRNO; lia) None sample_v4 sample_dir Hknown)
    as (dram & Hparse & Hiff).
  exists dram. split; [exact Hparse|].
  apply Hiff. exists 168, 800000, 1.
  split; [apply list_elem_of_lookup; exists 12%nat; reflexivity|].
  split; [reflexivity|]. split; [reflexivity|].
  split; [lia|]. split; [lia|reflexivity].
Defined.

Lemma X7_frequencies_exact_below_wrap_witness :
  decodable_version
    (smem_dram_infer_struct_version true 22 (Z.of_nat (length sample_v4)))
  ∧ ∃ dram,
      smem_dram_parse true 61 22 12 true None (Some sample_v4) true sample_dir
      = Some (sample_dir, Some dram)
      ∧ 800000000 ∈ smem_dram_frequencies_show dram
      ∧ ∀ x, x ∈ smem_dram_frequencies_show dram → 0 < x.
Proof.
  assert (decodable_version
            (smem_dram_infer_struct_version true 22
               (Z.of_nat (length sample_v4)))) as Hknown.
  { split; [vm_compute; split; discriminate|vm_compute; discriminate]. }
  split; [exact Hknown|].
  destruct (X7_frequencies_exact_below_wrap true 61 22 12 true
              ltac:(unfold MAX_ERRNO; lia) None sample_v4 sample_dir Hknown)
    as (dram & Hparse & Hiff).
  { intros addr freq_khz enabled Haddr Hf _ _ _.
    apply list_elem_of_In in Haddr. vm_compute in Haddr.
    repeat (destruct Haddr as [<-|Haddr];
            [vm_compute in Hf; injection Hf as <-; lia|]).
    destruct Haddr. }
  exists dram. split; [exact Hparse|]. split.
  - apply Hiff. exists 168, 800000, 1.
    split; [apply list_elem_of_lookup; exists 12%nat; reflexivity|].
    split; [reflexivity|]. split; [reflexivity|].
    split; [lia|]. split; [lia|]. split; [reflexivity|lia].
  - intros x Hx. apply Hiff in Hx as (_ & _ & _ & _ & _ & _ & _ & _ & _ & Hpos).
    exact Hpos.
Defined.

Lemma X9_v3_extractor_appends_within_capacity_witness :
  ∃ dram',
    smem_dram_parse_v3_data true
      {| frequencies := 5 :: replicate 13 0; num_frequencies := 1; hbb := 7 |}
      sample_v3_dup false
    = Some dram'
    ∧ hbb dram' = 7
    ∧ smem_dram_frequencies_show dram' = [5; 1600000000; 1600000000].
Proof.
  destruct (X9_v3_extractor_appends_within_capacity true
              {| frequencies := 5 :: replicate 13 0;
                 num_frequencies := 1; hbb := 7 |}
              sample_v3_dup eq_refl
              ltac:(unfold MAX_DDR_FREQ_NUM_V5; simpl; lia)
              ltac:(vm_compute; discriminate))
    as [Hfit _].
  destruct Hfit as (dram' & Hrun & Hhbb & _ & Hshow).
  { vm_compute. discriminate. }
  exists dram'. split; [exact Hrun|]. split; [exact Hhbb|].
  rewrite Hshow. reflexivity.
Defined.

Lemma X10_v5_other_region_counts_unknown_witness :
  smem_dram_infer_struct_version true 22 464 = INFO_UNKNOWN.
Proof.
  exact (X10_v5_other_region_counts_unknown true 22 5
           ltac:(lia) ltac:(lia) ltac:(lia)).
Defined.

Lemma X11_show_prints_the_listed_values_witness :
  smem_dram_frequencies_show_seq
    {| frequencies := [1600000000; 800000000] ++ replicate 12 0;
       num_frequencies := 2; hbb := 3 |} ""
  = Some (lines_of [1600000000; 800000000], 0).
Proof.
  exact (proj1 (X11_show_prints_the_listed_values
                  {| frequencies := [1600000000; 800000000] ++ replicate 12 0;
                     num_frequencies := 2; hbb := 3 |} ""
                  eq_refl ltac:(simpl; lia))
           ltac:(unfold MAX_DDR_FREQ_NUM_V5; simpl; lia)).
Defined.

Lemma X12_show_text_determines_the_list_witness :
  fold_left seq_printf_lu [1600000000; 0] ""
  = fold_left seq_printf_lu [1600000000; 0] ""
  ∧ [1600000000; 0] = [1600000000; 0].
Proof.
  split; [reflexivity|].
  apply (X12_show_text_determines_the_list [1600000000; 0] [1600000000; 0]);
    [repeat constructor; lia|repeat constructor; lia|reflexivity].
Defined.

Lemma X13_show_after_parse_witness :
  decodable_version
    (smem_dram_infer_struct_version true 22 (Z.of_nat (length sample_v4)))
  ∧ ∃ dram,
      smem_dram_parse true 61 22 12 true None (Some sample_v4) true sample_dir
      = Some (sample_dir, Some dram)
      ∧ smem_dram_frequencies_show_seq dram ""
        = Some (lines_of [1600000000; 800000000], 0).
Proof.
  assert (decodable_version
            (smem_dram_infer_struct_version true 22
               (Z.of_nat (length sample_v4)))) as Hknown.
  { split; [vm_compute; split; discriminate|vm_compute; discriminate]. }
  split; [exact Hknown|].
  destruct (X13_show_after_parse true 61 22 12 true
              ltac:(unfold MAX_ERRNO; lia) None sample_v4 sample_dir Hknown)
    as (dram & Hparse & Hshow).
  exists dram. split; [exact Hparse|]. rewrite Hshow. reflexivity.
Defined.
